(** * SentryCircle edge API: token service and access checks

    A shallow embedding of [cloudflare-worker/index.js]: the hand-written
    JWT helpers ([generateJWT], [verifyJWT]) and the request handlers that
    consult them, over a key-value store.

    Conventions of the embedding.
    - A JavaScript string is a [string]: a sequence of code units below
      256, the range on which [btoa] is defined.
    - A JSON number is an integer ([Z]); numbers with a fraction or an
      exponent, and integers beyond the exactly representable range of a
      double, are outside the model.
    - [undefined] is [None] in [option json].
    - [Date.now()] and [crypto.randomUUID()] are inputs of the handlers.
    - The HMAC and SHA-256 primitives of [crypto.subtle] are fields of the
      [Platform] class. [JWT_SECRET] is a text of the environment; the
      worker never imports it as a key. *)

From Stdlib Require Import ZArith NArith Ascii String List Bool Lia DecimalString.
From stdpp Require Import base strings list gmap.

Local Open Scope string_scope.
Local Open Scope N_scope.

(** ** [btoa] and [atob] *)

Module Base64.

Definition alphabet : string :=
  "ABCDEFGHIJKLMNOPQRSTUVWXYZabcdefghijklmnopqrstuvwxyz0123456789+/".

Definition pad : ascii := "="%char.

(** The character of a six-bit group. *)
Definition digit (n : N) : ascii :=
  match String.get (N.to_nat n) alphabet with
  | Some c => c
  | None => pad
  end.

(** The six-bit group of a character of the alphabet. *)
Definition value (c : ascii) : option N :=
  let n := N_of_ascii c in
  if (65 <=? n) && (n <=? 90) then Some (n - 65)
  else if (97 <=? n) && (n <=? 122) then Some (n - 71)
  else if (48 <=? n) && (n <=? 57) then Some (n + 4)
  else if n =? 43 then Some 62
  else if n =? 47 then Some 63
  else None.

Definition code (c : ascii) : N := N_of_ascii c.
Definition char (n : N) : ascii := ascii_of_N n.

(** [btoa]: three bytes become four characters; a last group of one or
    two bytes is padded with [=]. *)
Fixpoint btoa (s : string) : string :=
  match s with
  | EmptyString => EmptyString
  | String a EmptyString =>
      String (digit (code a / 4))
        (String (digit (code a mod 4 * 16)) (String pad (String pad EmptyString)))
  | String a (String b EmptyString) =>
      String (digit (code a / 4))
        (String (digit (code a mod 4 * 16 + code b / 16))
           (String (digit (code b mod 16 * 4)) (String pad EmptyString)))
  | String a (String b (String c rest)) =>
      String (digit (code a / 4))
        (String (digit (code a mod 4 * 16 + code b / 16))
           (String (digit (code b mod 16 * 4 + code c / 64))
              (String (digit (code c mod 64)) (btoa rest))))
  end.

(** [atob] follows the forgiving-base64 decoder: ASCII whitespace is
    dropped; when the length is a multiple of four, one or two trailing
    [=] are removed; a length of 1 modulo 4 or a character outside the
    alphabet fails; left-over bits of a short last group are discarded. *)
Definition is_whitespace (c : ascii) : bool :=
  let n := code c in
  (n =? 9) || (n =? 10) || (n =? 12) || (n =? 13) || (n =? 32).

Fixpoint strip_whitespace (s : string) : string :=
  match s with
  | EmptyString => EmptyString
  | String c rest =>
      if is_whitespace c then strip_whitespace rest
      else String c (strip_whitespace rest)
  end.

Definition is_pad (c : ascii) : bool := code c =? 61.

Fixpoint strip_padding (s : string) : string :=
  match s with
  | EmptyString => EmptyString
  | String c EmptyString => if is_pad c then EmptyString else s
  | String c (String d EmptyString as rest) =>
      if is_pad c && is_pad d then EmptyString
      else String c (strip_padding rest)
  | String c rest => String c (strip_padding rest)
  end.

Fixpoint values (s : string) : option (list N) :=
  match s with
  | EmptyString => Some nil
  | String c rest =>
      match value c, values rest with
      | Some v, Some vs => Some (v :: vs)
      | _, _ => None
      end
  end.

Fixpoint decode (l : list N) : string :=
  match l with
  | a :: b :: c :: d :: rest =>
      String (char (a * 4 + b / 16))
        (String (char (b mod 16 * 16 + c / 4))
           (String (char (c mod 4 * 64 + d)) (decode rest)))
  | a :: b :: c :: nil =>
      String (char (a * 4 + b / 16))
        (String (char (b mod 16 * 16 + c / 4)) EmptyString)
  | a :: b :: nil => String (char (a * 4 + b / 16)) EmptyString
  | _ => EmptyString
  end.

Definition atob (s : string) : option string :=
  let data := strip_whitespace s in
  let data :=
    if (N.of_nat (String.length data) mod 4 =? 0) then strip_padding data
    else data in
  if (N.of_nat (String.length data) mod 4 =? 1) then None
  else match values data with
       | Some l => Some (decode l)
       | None => None
       end.

End Base64.



(** ** JSON values, [JSON.stringify] and [JSON.parse] *)

#[local] Set Warnings "-register-all".

Inductive json :=
| JNull
| JBool (b : bool)
| JNum (n : Z)
| JStr (s : string)
| JArr (items : list json)
| JObj (props : list (string * json)).

(** A JavaScript value that may be [undefined]. *)
Abbreviation jsval := (option json).
Abbreviation undefined := (@None json).

Module Json.

Import Base64.

Definition dquote : ascii := "034"%char.
Definition backslash : ascii := "092"%char.

(** Own properties of an object, in insertion order. *)
Fixpoint obj_get (k : string) (l : list (string * json)) : jsval :=
  match l with
  | nil => undefined
  | (k', v) :: rest => if String.eqb k' k then Some v else obj_get k rest
  end.

Fixpoint obj_set (l : list (string * json)) (k : string) (v : json)
  : list (string * json) :=
  match l with
  | nil => (k, v) :: nil
  | (k', v') :: rest =>
      if String.eqb k' k then (k', v) :: rest else (k', v') :: obj_set rest k v
  end.

Definition obj_remove (k : string) (l : list (string * json))
  : list (string * json) :=
  List.filter (fun kv => negb (String.eqb (fst kv) k)) l.

(** An object literal [{k1: v1, ...}]; [JSON.stringify] leaves out the
    properties whose value is [undefined], so they are dropped here. *)
Fixpoint literal (l : list (string * jsval)) : list (string * json) :=
  match l with
  | nil => nil
  | (k, Some v) :: rest => (k, v) :: literal rest
  | (_, None) :: rest => literal rest
  end.

(** *** Printing *)

Definition hex_digit (n : N) : ascii :=
  if n <? 10 then char (48 + n) else char (87 + n).

Definition escape (c : ascii) : string :=
  let n := code c in
  if n =? 34 then String backslash (String dquote EmptyString)
  else if n =? 92 then String backslash (String backslash EmptyString)
  else if n =? 8 then String backslash "b"
  else if n =? 9 then String backslash "t"
  else if n =? 10 then String backslash "n"
  else if n =? 12 then String backslash "f"
  else if n =? 13 then String backslash "r"
  else if n <? 32 then
    String backslash
      (String "u" (String "0" (String "0"
         (String (hex_digit (n / 16)) (String (hex_digit (n mod 16)) EmptyString)))))
  else String c EmptyString.

Fixpoint escape_all (s : string) : string :=
  match s with
  | EmptyString => EmptyString
  | String c rest => escape c +:+ escape_all rest
  end.

Definition quote (s : string) : string :=
  String dquote (escape_all s +:+ String dquote EmptyString).

Definition number_to_string (n : Z) : string :=
  DecimalString.NilZero.string_of_int (Z.to_int n).

Fixpoint join (sep : string) (l : list string) : string :=
  match l with
  | nil => EmptyString
  | x :: nil => x
  | x :: rest => x +:+ sep +:+ join sep rest
  end.

Fixpoint stringify (v : json) : string :=
  match v with
  | JNull => "null"
  | JBool true => "true"
  | JBool false => "false"
  | JNum n => number_to_string n
  | JStr s => quote s
  | JArr l => "[" +:+ join "," (List.map stringify l) +:+ "]"
  | JObj l =>
      "{" +:+
      join "," (List.map (fun kv => quote (fst kv) +:+ ":" +:+ stringify (snd kv)) l)
      +:+ "}"
  end.

(** *** Parsing

    A recursive-descent parser for the JSON grammar. The fuel bounds the
    number of values and members read; every one of them consumes at least
    one character, so the length of the text is enough. A number with a
    fraction or an exponent and a [\u] escape above [00ff] are rejected:
    such texts are outside the model. *)

Definition is_json_space (c : ascii) : bool :=
  let n := code c in (n =? 32) || (n =? 9) || (n =? 10) || (n =? 13).

Fixpoint skip_ws (s : string) : string :=
  match s with
  | String c rest => if is_json_space c then skip_ws rest else s
  | EmptyString => s
  end.

Definition hex_value (c : ascii) : option N :=
  let n := code c in
  if (48 <=? n) && (n <=? 57) then Some (n - 48)
  else if (97 <=? n) && (n <=? 102) then Some (n - 87)
  else if (65 <=? n) && (n <=? 70) then Some (n - 55)
  else None.

Definition unicode_escape (a b c d : ascii) : option ascii :=
  match hex_value a, hex_value b, hex_value c, hex_value d with
  | Some x, Some y, Some z, Some w =>
      let n := ((x * 16 + y) * 16 + z) * 16 + w in
      if n <? 256 then Some (char n) else None
  | _, _, _, _ => None
  end.

Definition simple_escape (c : ascii) : option ascii :=
  let n := code c in
  if n =? 34 then Some dquote
  else if n =? 92 then Some backslash
  else if n =? 47 then Some "/"%char
  else if n =? 98 then Some (char 8)
  else if n =? 102 then Some (char 12)
  else if n =? 110 then Some (char 10)
  else if n =? 114 then Some (char 13)
  else if n =? 116 then Some (char 9)
  else None.

(** The characters of a string literal after its opening quote, up to and
    including the closing quote. *)
Fixpoint parse_string (s : string) : option (string * string) :=
  match s with
  | EmptyString => None
  | String c rest =>
      if code c =? 34 then Some (EmptyString, rest)
      else if code c =? 92 then
        match rest with
        | String e rest' =>
            if code e =? 117 then
              match rest' with
              | String h1 (String h2 (String h3 (String h4 rest''))) =>
                  match unicode_escape h1 h2 h3 h4, parse_string rest'' with
                  | Some u, Some (str, out) => Some (String u str, out)
                  | _, _ => None
                  end
              | _ => None
              end
            else
              match simple_escape e, parse_string rest' with
              | Some u, Some (str, out) => Some (String u str, out)
              | _, _ => None
              end
        | EmptyString => None
        end
      else if code c <? 32 then None
      else
        match parse_string rest with
        | Some (str, out) => Some (String c str, out)
        | None => None
        end
  end.

Definition is_digit (c : ascii) : bool := (48 <=? code c) && (code c <=? 57).

Fixpoint parse_digits (acc : Z) (s : string) : Z * string :=
  match s with
  | String c rest =>
      if is_digit c
      then parse_digits (acc * 10 + Z.of_N (code c - 48))%Z rest
      else (acc, s)
  | EmptyString => (acc, s)
  end.

Definition starts_fraction (s : string) : bool :=
  match s with
  | String c _ => (code c =? 46) || (code c =? 101) || (code c =? 69)
  | EmptyString => false
  end.

(** [int]: a single [0], or a non-zero digit followed by digits. *)
Definition parse_int (s : string) : option (Z * string) :=
  match s with
  | String c rest =>
      if code c =? 48 then
        if starts_fraction rest then None else Some (0%Z, rest)
      else if is_digit c then
        let '(n, out) := parse_digits (Z.of_N (code c - 48)) rest in
        if starts_fraction out then None else Some (n, out)
      else None
  | EmptyString => None
  end.

Definition parse_number (s : string) : option (Z * string) :=
  match s with
  | String c rest =>
      if code c =? 45 then
        match parse_int rest with
        | Some (n, out) => Some ((- n)%Z, out)
        | None => None
        end
      else parse_int s
  | EmptyString => None
  end.

Fixpoint strip_prefix (p s : string) : option string :=
  match p, s with
  | EmptyString, _ => Some s
  | String a p', String b s' =>
      if Ascii.eqb a b then strip_prefix p' s' else None
  | String _ _, EmptyString => None
  end.

Section Containers.

(** The parser of one value, supplied by [parse_value] below. *)
Variable parse_value : string -> option (json * string).

(** The elements of an array after the first one has been announced. *)
Fixpoint parse_elements (fuel : nat) (acc : list json) (s : string)
  : option (json * string) :=
  match fuel with
  | O => None
  | S fuel' =>
      match parse_value s with
      | Some (v, out) =>
          match skip_ws out with
          | String c rest =>
              if code c =? 44 then parse_elements fuel' (acc ++ v :: nil) rest
              else if code c =? 93 then Some (JArr (acc ++ v :: nil), rest)
              else None
          | EmptyString => None
          end
      | None => None
      end
  end.

(** The members of an object; a repeated key keeps its place and takes
    the later value. *)
Fixpoint parse_members (fuel : nat) (acc : list (string * json)) (s : string)
  : option (json * string) :=
  match fuel with
  | O => None
  | S fuel' =>
      match skip_ws s with
      | String q rest =>
          if code q =? 34 then
            match parse_string rest with
            | Some (k, out) =>
                match skip_ws out with
                | String c rest' =>
                    if code c =? 58 then
                      match parse_value rest' with
                      | Some (v, out') =>
                          match skip_ws out' with
                          | String d rest'' =>
                              if code d =? 44
                              then parse_members fuel' (obj_set acc k v) rest''
                              else if code d =? 125
                              then Some (JObj (obj_set acc k v), rest'')
                              else None
                          | EmptyString => None
                          end
                      | None => None
                      end
                    else None
                | EmptyString => None
                end
            | None => None
            end
          else None
      | EmptyString => None
      end
  end.

End Containers.

Fixpoint parse_value (fuel : nat) (s : string) : option (json * string) :=
  match fuel with
  | O => None
  | S fuel' =>
      match skip_ws s with
      | EmptyString => None
      | String c rest as text =>
          if code c =? 123 then
            match skip_ws rest with
            | String d rest' =>
                if code d =? 125 then Some (JObj nil, rest')
                else parse_members (parse_value fuel') fuel' nil rest
            | EmptyString => None
            end
          else if code c =? 91 then
            match skip_ws rest with
            | String d rest' =>
                if code d =? 93 then Some (JArr nil, rest')
                else parse_elements (parse_value fuel') fuel' nil rest
            | EmptyString => None
            end
          else if code c =? 34 then
            match parse_string rest with
            | Some (str, out) => Some (JStr str, out)
            | None => None
            end
          else if code c =? 116 then
            match strip_prefix "true" text with
            | Some out => Some (JBool true, out)
            | None => None
            end
          else if code c =? 102 then
            match strip_prefix "false" text with
            | Some out => Some (JBool false, out)
            | None => None
            end
          else if code c =? 110 then
            match strip_prefix "null" text with
            | Some out => Some (JNull, out)
            | None => None
            end
          else
            match parse_number text with
            | Some (n, out) => Some (JNum n, out)
            | None => None
            end
      end
  end.

(** [JSON.parse]: one value, then only white space. [None] stands for the
    [SyntaxError] it throws. *)
Definition parse (s : string) : option json :=
  match parse_value (S (String.length s)) s with
  | Some (v, out) =>
      match skip_ws out with
      | EmptyString => Some v
      | String _ _ => None
      end
  | None => None
  end.

End Json.

(** ** The platform

    What the worker takes from its runtime and environment. *)

Class Platform := {
  (** the binding [JWT_SECRET] *)
  JWT_SECRET : string;
  (** HMAC-SHA256 of the UTF-8 bytes of a message, as a byte string *)
  hmac_sha256 : string -> string -> string;
  hmac_sha256_length :
    forall key data, String.length (hmac_sha256 key data) = 32%nat;
  (** [crypto.subtle.digest('SHA-256', ...)] printed in hexadecimal *)
  sha256_hex : string -> string;
  (** [v <= n] for a string, an array or an object [v], which the
      language settles by converting [v] to a primitive and then to a
      number *)
  coerced_le : json -> Z -> bool
}.

(** A promise that settles to [result], or that rejects. *)
Inductive promise (A : Type) :=
| Settles (result : A)
| Rejects.
Arguments Settles {A} result.
Arguments Rejects {A}.

(** [await p]: the result, or [None] when the rejection is thrown. *)
Definition await {A} (p : promise A) : option A :=
  match p with
  | Settles r => Some r
  | Rejects => None
  end.

(** What a caller hands to [crypto.subtle.sign] and [crypto.subtle.verify]
    as the key: a [CryptoKey], which only [importKey] and [generateKey]
    make, or another value, here a text, for which the call rejects with a
    [TypeError]. *)
Inductive subtle_key :=
| CryptoKey (raw : string)
| TextKey (text : string).

(** [new Uint8Array(x)] for an object [x] that is neither a buffer nor a
    typed array nor iterable takes its size from [x.length]. A promise has
    no [length]: the array is empty, whatever the promise settles to. *)
Definition Uint8Array_from {A} (x : promise A) : string := EmptyString.

Module Jwt.

Import Base64 Json.

(** The second parameter of [generateJWT]: the default ['7d'], or a
    number of seconds, which [parseInt] returns as it is. *)
Inductive lifetime := SevenDays | Seconds (n : Z).

(** What [verifyJWT] returns: [{ valid: true, payload }] or
    [{ valid: false, reason }]. *)
Inductive verdict :=
| Valid (payload : json)
| Invalid (reason : string).

Section Token.

Context `{Platform}.

(** [crypto.subtle.sign('HMAC', key, data)] *)
Definition subtle_sign (key : subtle_key) (data : string) : promise string :=
  match key with
  | CryptoKey raw => Settles (hmac_sha256 raw data)
  | TextKey _ => Rejects
  end.

(** [crypto.subtle.verify('HMAC', key, signature, data)] *)
Definition subtle_verify (key : subtle_key) (signature data : string)
  : promise bool :=
  match key with
  | CryptoKey raw => Settles (String.eqb signature (hmac_sha256 raw data))
  | TextKey _ => Rejects
  end.

Definition header : json :=
  JObj (("alg", JStr "HS256") :: ("typ", JStr "JWT") :: nil).

(** An object in memory: a property may hold [undefined]. *)
Definition spread_set (l : list (string * jsval)) (k : string) (v : jsval)
  : list (string * jsval) :=
  if existsb (fun kv => String.eqb (fst kv) k) l
  then List.map (fun kv => if String.eqb (fst kv) k then (fst kv, v) else kv) l
  else l ++ (k, v) :: nil.

Definition generateJWT (clock : Z) (payload : list (string * jsval))
    (expiresIn : lifetime) : string :=
  let now := (clock / 1000)%Z in
  let exp :=
    (now + match expiresIn with
           | SevenDays => 7 * 24 * 60 * 60
           | Seconds n => n
           end)%Z in
  let tokenPayload :=
    spread_set (spread_set payload "iat" (Some (JNum now))) "exp" (Some (JNum exp)) in
  let base64Header := btoa (stringify header) in
  let base64Payload := btoa (stringify (JObj (literal tokenPayload))) in
  let signature :=
    subtle_sign (TextKey JWT_SECRET) (base64Header +:+ "." +:+ base64Payload) in
  base64Header +:+ "." +:+ base64Payload +:+ "." +:+
    btoa (Uint8Array_from signature).

(** [token.split('.')] *)
Fixpoint split_on (sep : ascii) (s : string) : list string :=
  match s with
  | EmptyString => EmptyString :: nil
  | String c rest =>
      if Ascii.eqb c sep then EmptyString :: split_on sep rest
      else match split_on sep rest with
           | seg :: segs => String c seg :: segs
           | nil => String c EmptyString :: nil
           end
  end.

(** A missing array element is [undefined], which [atob] and a template
    literal read as the text ["undefined"]. *)
Definition to_text (x : option string) : string :=
  match x with
  | Some s => s
  | None => "undefined"
  end.

(** [v.k] for the property names the worker reads, none of which is
    defined on a prototype: [null] has no properties and throws. *)
Definition get_prop (v : json) (k : string) : option jsval :=
  match v with
  | JNull => None
  | JObj l => Some (obj_get k l)
  | _ => Some undefined
  end.

(** [v <= n] for a value [v] and an integer [n] *)
Definition js_le (v : jsval) (n : Z) : bool :=
  match v with
  | None => false
  | Some JNull => (0 <=? n)%Z
  | Some (JBool b) => ((if b then 1 else 0) <=? n)%Z
  | Some (JNum x) => (x <=? n)%Z
  | Some w => coerced_le w n
  end.

Definition invalid_format : verdict := Invalid "Invalid token format".

(** Every exception inside the [try] block ends in [invalid_format]; so
    does the rejection of [crypto.subtle.verify], which is awaited there. *)
Definition verifyJWT (clock : Z) (token : json) : verdict :=
  match token with
  | JStr t =>
      let parts := split_on "."%char t in
      let base64Header := parts !! 0%nat in
      let base64Payload := parts !! 1%nat in
      let signature := parts !! 2%nat in
      match atob (to_text base64Payload) with
      | None => invalid_format
      | Some text =>
          match parse text with
          | None => invalid_format
          | Some payload =>
              let now := (clock / 1000)%Z in
              match get_prop payload "exp" with
              | None => invalid_format
              | Some exp =>
                  if js_le exp now then Invalid "Token expired"
                  else
                    match atob (to_text signature) with
                    | None => invalid_format
                    | Some sig =>
                        match await (subtle_verify (TextKey JWT_SECRET) sig
                                       (to_text base64Header +:+ "." +:+
                                        to_text base64Payload)) with
                        | Some validSignature =>
                            if validSignature then Valid payload
                            else Invalid "Invalid signature"
                        | None => invalid_format
                        end
                    end
              end
          end
      end
  | _ => invalid_format
  end.

End Token.

End Jwt.

(** ** The operations of the language the handlers use *)

Module Js.

Import Base64 Json.

(** [!v] is [negb (truthy v)]. *)
Definition truthy (v : jsval) : bool :=
  match v with
  | None => false
  | Some JNull => false
  | Some (JBool b) => b
  | Some (JNum n) => negb (n =? 0)%Z
  | Some (JStr s) => negb (String.eqb s EmptyString)
  | Some (JArr _) => true
  | Some (JObj _) => true
  end.

(** [a || b] *)
Definition or_else (a : jsval) (b : json) : json :=
  match a with
  | Some v => if truthy a then v else b
  | None => b
  end.

(** [a === b] for two values that were read from different texts: two
    primitives are equal when they are the same value, an array or an
    object is equal only to itself. *)
Definition strict_eq (a b : jsval) : bool :=
  match a, b with
  | None, None => true
  | Some JNull, Some JNull => true
  | Some (JBool x), Some (JBool y) => Bool.eqb x y
  | Some (JNum x), Some (JNum y) => (x =? y)%Z
  | Some (JStr x), Some (JStr y) => String.eqb x y
  | _, _ => false
  end.

Fixpoint all_some {A} (l : list (option A)) : option (list A) :=
  match l with
  | nil => Some nil
  | Some x :: rest =>
      match all_some rest with
      | Some xs => Some (x :: xs)
      | None => None
      end
  | None :: _ => None
  end.

(** The text of a value in a template literal. An array joins the texts
    of its elements, [null] counting as the empty text; an object is
    ["[object Object]"] unless an own [toString] property, which JSON
    cannot make callable, hides the inherited method: then the conversion
    throws. *)
Fixpoint to_string (v : json) : option string :=
  match v with
  | JNull => Some "null"
  | JBool true => Some "true"
  | JBool false => Some "false"
  | JNum n => Some (number_to_string n)
  | JStr s => Some s
  | JArr l =>
      match all_some (List.map (fun x => match x with
                                         | JNull => Some EmptyString
                                         | _ => to_string x
                                         end) l) with
      | Some texts => Some (join "," texts)
      | None => None
      end
  | JObj l =>
      match obj_get "toString" l with
      | Some _ => None
      | None => Some "[object Object]"
      end
  end.

Definition text_of (v : jsval) : option string :=
  match v with
  | None => Some "undefined"
  | Some w => to_string w
  end.

Fixpoint is_prefix (p s : string) : bool :=
  match p, s with
  | EmptyString, _ => true
  | String a p', String b s' => Ascii.eqb a b && is_prefix p' s'
  | String _ _, EmptyString => false
  end.

Fixpoint contains (s sub : string) : bool :=
  is_prefix sub s ||
  match s with
  | EmptyString => false
  | String _ rest => contains rest sub
  end.

(** [c.includes(x)]: membership for an array, a substring test for a
    string; no other JSON value has the method, and the call throws. *)
Definition includes (c : jsval) (x : jsval) : option bool :=
  match c with
  | Some (JArr l) => Some (existsb (fun y => strict_eq (Some y) x) l)
  | Some (JStr s) =>
      match text_of x with
      | Some sub => Some (contains s sub)
      | None => None
      end
  | _ => None
  end.

(** An element that is [undefined] is written as [null]. *)
Definition element (x : jsval) : json :=
  match x with
  | Some v => v
  | None => JNull
  end.

(** [c.push(x)] *)
Definition push (c : jsval) (x : jsval) : option json :=
  match c with
  | Some (JArr l) => Some (JArr (l ++ element x :: nil))
  | _ => None
  end.

(** [c.unshift(x)] *)
Definition unshift (c : json) (x : json) : option (list json) :=
  match c with
  | JArr l => Some (x :: l)
  | _ => None
  end.

(** [h.length > n ? h.slice(0, n) : h] *)
Definition keep_first (n : nat) (l : list json) : list json :=
  if (n <? length l)%nat then take n l else l.

(** [v.k = x] on a parsed record *)
Definition set_prop (v : json) (k : string) (x : json) : option json :=
  match v with
  | JNull => None
  | JObj l => Some (JObj (obj_set l k x))
  | _ => Some v
  end.

(** The values a [for ... of] loop visits. *)
Definition iterate (v : jsval) : option (list json) :=
  match v with
  | Some (JArr l) => Some l
  | Some (JStr s) =>
      Some (List.map (fun c => JStr (String c EmptyString)) (list_ascii_of_string s))
  | _ => None
  end.

End Js.

(** ** Requests against the store *)

Abbreviation store := (gmap string json).

(** The record kept under a key, as [JSON.parse] gives it back. *)
Inductive response :=
| Json (status : Z) (body : json)
| ServerError.

Definition M (A : Type) : Type := store -> option A * store.

Definition ret {A} (a : A) : M A := fun s => (Some a, s).

Definition throw {A} : M A := fun s => (None, s).

Definition bind {A B} (m : M A) (k : A -> M B) : M B :=
  fun s =>
    match m s with
    | (Some a, s') => k a s'
    | (None, s') => (None, s')
    end.

Definition lift {A} (o : option A) : M A :=
  match o with
  | Some a => ret a
  | None => throw
  end.

Definition kv_get (key : string) : M jsval := fun s => (Some (s !! key), s).

Definition kv_put (key : string) (v : json) : M unit :=
  fun s => (Some tt, <[key := v]> s).

(** The [try { ... } catch (error) { ... }] around every handler body:
    status 500 with the message of the exception. *)
Definition try_catch (m : M response) : store -> response * store :=
  fun s =>
    match m s with
    | (Some r, s') => (r, s')
    | (None, s') => (ServerError, s')
    end.

Declare Scope handler_scope.
Delimit Scope handler_scope with handler.
Notation "'let*' x ':=' c 'in' k" := (bind c (fun x => k))
  (at level 10, x name, c at level 100, k at level 200) : handler_scope.
Notation "'do' c 'then' k" := (bind c (fun _ => k))
  (at level 10, c at level 100, k at level 200) : handler_scope.

Module Worker.

Import Base64 Json Js Jwt.

Local Open Scope handler_scope.

Definition error (message : string) : json :=
  JObj (("error", JStr message) :: nil).

Definition unauthorized : response := Json 403 (error "Unauthorized").

(** [v.k], throwing on [null] *)
Definition prop (v : json) (k : string) : M jsval := lift (get_prop v k).

(** [`prefix${v}`] *)
Definition template (prefix : string) (v : jsval) : M string :=
  let* text := lift (text_of v) in ret (prefix +:+ text).

Section Handlers.

Context `{Platform}.

(** The body of the request is given as [request.json()] parsed it. *)
Definition handleRegister (body : json) (clock : Z) (uuid : string)
  : store -> response * store :=
  try_catch (
    let* email := prop body "email" in
    let* password := prop body "password" in
    let* name := prop body "name" in
    let* role := prop body "role" in
    if negb (truthy email) || negb (truthy password)
       || negb (truthy name) || negb (truthy role)
    then ret (Json 400 (error "Missing required fields"))
    else
      let* userKey := template "user:" email in
      let* existingUser := kv_get userKey in
      match existingUser with
      | Some _ => ret (Json 409 (error "User already exists"))
      | None =>
          let* passwordText := lift (text_of password) in
          let hashedPassword := sha256_hex passwordText in
          let userId := uuid in
          let user :=
            literal (("id", Some (JStr userId)) :: ("email", email)
                     :: ("name", name) :: ("role", role)
                     :: ("passwordHash", Some (JStr hashedPassword))
                     :: ("createdAt", Some (JNum clock)) :: nil) in
          do kv_put userKey (JObj user) then
          do kv_put ("userId:" +:+ userId) (element email) then
          let token :=
            generateJWT clock
              (("userId", Some (JStr userId)) :: ("email", email)
               :: ("role", role) :: nil) SevenDays in
          let userWithoutPassword := obj_remove "passwordHash" user in
          ret (Json 200 (JObj (("user", JObj userWithoutPassword)
                               :: ("token", JStr token) :: nil)))
      end).

(** The own properties a spread or a rest pattern copies. *)
Definition own_props (v : json) : list (string * json) :=
  match v with
  | JObj l => l
  | _ => nil
  end.

Definition handleLogin (body : json) (clock : Z)
  : store -> response * store :=
  try_catch (
    let* email := prop body "email" in
    let* password := prop body "password" in
    if negb (truthy email) || negb (truthy password)
    then ret (Json 400 (error "Email and password are required"))
    else
      let* userKey := template "user:" email in
      let* userJson := kv_get userKey in
      match userJson with
      | None => ret (Json 401 (error "Invalid email or password"))
      | Some user =>
          let* passwordText := lift (text_of password) in
          let hashedPassword := sha256_hex passwordText in
          let* storedHash := prop user "passwordHash" in
          if negb (strict_eq storedHash (Some (JStr hashedPassword)))
          then ret (Json 401 (error "Invalid email or password"))
          else
            let* id := prop user "id" in
            let* role := prop user "role" in
            let token :=
              generateJWT clock
                (("userId", id) :: ("email", email) :: ("role", role) :: nil)
                SevenDays in
            let userWithoutPassword := obj_remove "passwordHash" (own_props user) in
            ret (Json 200 (JObj (("user", JObj userWithoutPassword)
                                 :: ("token", JStr token) :: nil)))
      end).

Definition handleRefresh (body : json) (clock : Z)
  : store -> response * store :=
  try_catch (
    let* token := prop body "token" in
    match token with
    | Some t =>
        if negb (truthy token)
        then ret (Json 400 (error "Token is required"))
        else
          match verifyJWT clock t with
          | Invalid reason => ret (Json 401 (error reason))
          | Valid payload =>
              let* userId := prop payload "userId" in
              let* email := prop payload "email" in
              let* role := prop payload "role" in
              let newToken :=
                generateJWT clock
                  (("userId", userId) :: ("email", email) :: ("role", role) :: nil)
                  SevenDays in
              ret (Json 200 (JObj (("token", JStr newToken) :: nil)))
          end
    | None => ret (Json 400 (error "Token is required"))
    end).

Definition handleLocationUpdate (body auth : json) (clock : Z)
  : store -> response * store :=
  try_catch (
    let* deviceId := prop body "deviceId" in
    let* location := prop body "location" in
    let* timestamp := prop body "timestamp" in
    let* batteryLevel := prop body "batteryLevel" in
    if negb (truthy deviceId) || negb (truthy location)
    then ret (Json 400 (error "Missing required fields"))
    else
      let* deviceKey := template "device:" deviceId in
      let* deviceJson := kv_get deviceKey in
      match deviceJson with
      | None => ret (Json 404 (error "Device not found"))
      | Some device =>
          let* owner := prop device "userId" in
          let* caller := prop auth "userId" in
          let* refusal :=
            if negb (strict_eq owner caller) then
              let* childId := prop device "childId" in
              let* childKey := template "child:" childId in
              let* childJson := kv_get childKey in
              match childJson with
              | None => ret (Some unauthorized)
              | Some child =>
                  let* familyId := prop child "familyId" in
                  let* familyKey := template "family:" familyId in
                  let* familyJson := kv_get familyKey in
                  match familyJson with
                  | None => ret (Some unauthorized)
                  | Some family =>
                      let* guardians := prop family "guardians" in
                      let* listed := lift (includes guardians caller) in
                      if negb listed then ret (Some unauthorized) else ret None
                  end
              end
            else ret None in
          match refusal with
          | Some r => ret r
          | None =>
              let locationData :=
                JObj (literal (("deviceId", deviceId) :: ("location", location)
                               :: ("timestamp", Some (or_else timestamp (JNum clock)))
                               :: ("batteryLevel", Some (or_else batteryLevel (JNum 100)))
                               :: nil)) in
              let* locationKey := template "currentLocation:" deviceId in
              do kv_put locationKey locationData then
              let* historyKey := template "locationHistory:" deviceId in
              let* existingHistory := kv_get historyKey in
              let history := or_else existingHistory (JArr nil) in
              let* history := lift (unshift history locationData) in
              let history := keep_first 100 history in
              do kv_put historyKey (JArr history) then
              ret (Json 200 (JObj (("success", JBool true) :: nil)))
          end
      end).

Definition handleLocationRetrieval (includeHistory : bool) (deviceId : string)
    (auth : json) : store -> response * store :=
  try_catch (
    let* deviceJson := kv_get ("device:" +:+ deviceId) in
    match deviceJson with
    | None => ret (Json 404 (error "Device not found"))
    | Some device =>
        let* owner := prop device "userId" in
        let* caller := prop auth "userId" in
        let* refusal :=
          if negb (strict_eq owner caller) then
            let* childId := prop device "childId" in
            let* childKey := template "child:" childId in
            let* childJson := kv_get childKey in
            match childJson with
            | None => ret (Some unauthorized)
            | Some child =>
                let* familyId := prop child "familyId" in
                let* familyKey := template "family:" familyId in
                let* familyJson := kv_get familyKey in
                match familyJson with
                | None => ret (Some unauthorized)
                | Some family =>
                    let* guardians := prop family "guardians" in
                    let* listed := lift (includes guardians caller) in
                    if negb listed then ret (Some unauthorized) else ret None
                end
            end
          else ret None in
        match refusal with
        | Some r => ret r
        | None =>
            let* currentLocationJson := kv_get ("currentLocation:" +:+ deviceId) in
            match currentLocationJson with
            | None => ret (Json 404 (error "No location data available"))
            | Some currentLocation =>
                if includeHistory then
                  let* historyJson := kv_get ("locationHistory:" +:+ deviceId) in
                  let history := match historyJson with
                                 | Some h => h
                                 | None => JArr nil
                                 end in
                  ret (Json 200 (JObj (("current", currentLocation)
                                       :: ("history", history) :: nil)))
                else ret (Json 200 currentLocation)
            end
        end
    end).

Definition handleCommandCreation (body auth : json) (clock : Z) (uuid : string)
  : store -> response * store :=
  try_catch (
    let* deviceId := prop body "deviceId" in
    let* type := prop body "type" in
    let* data := prop body "data" in
    if negb (truthy deviceId) || negb (truthy type)
    then ret (Json 400 (error "Missing required fields"))
    else
      let* deviceKey := template "device:" deviceId in
      let* deviceJson := kv_get deviceKey in
      match deviceJson with
      | None => ret (Json 404 (error "Device not found"))
      | Some device =>
          let* childId := prop device "childId" in
          let* childKey := template "child:" childId in
          let* childJson := kv_get childKey in
          match childJson with
          | None => ret unauthorized
          | Some child =>
              let* familyId := prop child "familyId" in
              let* familyKey := template "family:" familyId in
              let* familyJson := kv_get familyKey in
              match familyJson with
              | None => ret unauthorized
              | Some family =>
                  let* guardians := prop family "guardians" in
                  let* caller := prop auth "userId" in
                  let* listed := lift (includes guardians caller) in
                  if negb listed then ret unauthorized
                  else
                    let commandId := uuid in
                    let command :=
                      JObj (literal (("id", Some (JStr commandId))
                                     :: ("deviceId", deviceId)
                                     :: ("type", type)
                                     :: ("data", Some (or_else data (JObj nil)))
                                     :: ("status", Some (JStr "pending"))
                                     :: ("createdAt", Some (JNum clock))
                                     :: ("createdBy", caller)
                                     :: ("updatedAt", Some (JNum clock)) :: nil)) in
                    let* commandKey := template "command:" deviceId in
                    do kv_put (commandKey +:+ ":" +:+ commandId) command then
                    let* commandsKey := template "commands:" deviceId in
                    let* existingCommands := kv_get commandsKey in
                    let commands := or_else existingCommands (JArr nil) in
                    let* commands := lift (unshift commands (JStr commandId)) in
                    let commands := keep_first 50 commands in
                    do kv_put commandsKey (JArr commands) then
                    ret (Json 200 (JObj (("success", JBool true)
                                         :: ("command", command) :: nil)))
              end
          end
      end).

Definition handleFamilyUpdate (body : json) (familyId : string) (auth : json)
    (clock : Z) : store -> response * store :=
  try_catch (
    let* familyJson := kv_get ("family:" +:+ familyId) in
    match familyJson with
    | None => ret (Json 404 (error "Family not found"))
    | Some family =>
        let* current := prop family "guardians" in
        let* caller := prop auth "userId" in
        let* listed := lift (includes current caller) in
        if negb listed then ret unauthorized
        else
          let* name := prop body "name" in
          let* guardians := prop body "guardians" in
          let* family :=
            if truthy name then lift (set_prop family "name" (element name))
            else ret family in
          let* family :=
            if truthy guardians then
              let* family := lift (set_prop family "guardians" (element guardians)) in
              let* replaced := prop family "guardians" in
              let* kept := lift (includes replaced caller) in
              if negb kept then
                let* extended := lift (push replaced caller) in
                lift (set_prop family "guardians" extended)
              else ret family
            else ret family in
          let* family := lift (set_prop family "updatedAt" (JNum clock)) in
          do kv_put ("family:" +:+ familyId) family then
          ret (Json 200 (JObj (("success", JBool true) :: ("family", family) :: nil)))
    end).

(** The records of the listed devices that the store holds. *)
Fixpoint collect (prefix : string) (ids : list json) : M (list json) :=
  match ids with
  | nil => ret nil
  | id :: rest =>
      let* key := template prefix (Some id) in
      let* found := kv_get key in
      let* others := collect prefix rest in
      ret (match found with
           | Some record => record :: others
           | None => others
           end)
  end.

Definition handleChildRetrieval (includeDevices : bool) (childId : string)
    (auth : json) : store -> response * store :=
  try_catch (
    let* childJson := kv_get ("child:" +:+ childId) in
    match childJson with
    | None => ret (Json 404 (error "Child not found"))
    | Some child =>
        let* familyId := prop child "familyId" in
        let* familyKey := template "family:" familyId in
        let* familyJson := kv_get familyKey in
        match familyJson with
        | None => ret (Json 404 (error "Family not found"))
        | Some family =>
            let* guardians := prop family "guardians" in
            let* caller := prop auth "userId" in
            let* listed := lift (includes guardians caller) in
            let* linked := prop child "userId" in
            if negb listed && negb (strict_eq linked caller)
            then ret unauthorized
            else if includeDevices then
              let* ids := prop child "devices" in
              let* ids := lift (iterate ids) in
              let* devices := collect "device:" ids in
              ret (Json 200 (JObj (obj_set (own_props child) "devicesDetails"
                                     (JArr devices))))
            else ret (Json 200 child)
        end
    end).

Definition handleDeviceRetrieval (includeLocation : bool) (deviceId : string)
    (auth : json) : store -> response * store :=
  try_catch (
    let* deviceJson := kv_get ("device:" +:+ deviceId) in
    match deviceJson with
    | None => ret (Json 404 (error "Device not found"))
    | Some device =>
        let* owner := prop device "userId" in
        let* caller := prop auth "userId" in
        let hasAccess := strict_eq owner caller in
        let* hasAccess :=
          if negb hasAccess then
            let* childId := prop device "childId" in
            let* childKey := template "child:" childId in
            let* childJson := kv_get childKey in
            match childJson with
            | Some child =>
                let* familyId := prop child "familyId" in
                let* familyKey := template "family:" familyId in
                let* familyJson := kv_get familyKey in
                match familyJson with
                | Some family =>
                    let* guardians := prop family "guardians" in
                    lift (includes guardians caller)
                | None => ret hasAccess
                end
            | None => ret hasAccess
            end
          else ret hasAccess in
        if negb hasAccess then ret unauthorized
        else if includeLocation then
          let* locationJson := kv_get ("currentLocation:" +:+ deviceId) in
          let location := match locationJson with
                          | Some l => l
                          | None => JNull
                          end in
          ret (Json 200 (JObj (obj_set (own_props device) "location" location)))
        else ret (Json 200 device)
    end).

(** The loop of [handleCommandRetrieval] over the identifiers of the
    commands: the stored commands that pass the status filter, if one is
    given. *)
Fixpoint commands_of (statusFilter : option string) (deviceId : string)
    (commandIds : list json) : M (list json) :=
  match commandIds with
  | nil => ret nil
  | commandId :: rest =>
      let* key := template ("command:" +:+ deviceId +:+ ":") (Some commandId) in
      let* commandJson := kv_get key in
      let* wanted :=
        match commandJson with
        | Some command =>
            match statusFilter with
            | Some f =>
                if String.eqb f EmptyString then ret (Some command)
                else
                  let* status := prop command "status" in
                  ret (if strict_eq status (Some (JStr f)) then Some command
                       else None)
            | None => ret (Some command)
            end
        | None => ret None
        end in
      let* others := commands_of statusFilter deviceId rest in
      ret (match wanted with
           | Some command => command :: others
           | None => others
           end)
  end.

Definition handleCommandRetrieval (statusFilter : option string)
    (deviceId : string) (auth : json) : store -> response * store :=
  try_catch (
    let* deviceJson := kv_get ("device:" +:+ deviceId) in
    match deviceJson with
    | None => ret (Json 404 (error "Device not found"))
    | Some device =>
        let* owner := prop device "userId" in
        let* caller := prop auth "userId" in
        let hasAccess := strict_eq owner caller in
        let* hasAccess :=
          if negb hasAccess then
            let* childId := prop device "childId" in
            let* childKey := template "child:" childId in
            let* childJson := kv_get childKey in
            match childJson with
            | Some child =>
                let* familyId := prop child "familyId" in
                let* familyKey := template "family:" familyId in
                let* familyJson := kv_get familyKey in
                match familyJson with
                | Some family =>
                    let* guardians := prop family "guardians" in
                    lift (includes guardians caller)
                | None => ret hasAccess
                end
            | None => ret hasAccess
            end
          else ret hasAccess in
        if negb hasAccess then ret unauthorized
        else
          let* existingCommands := kv_get ("commands:" +:+ deviceId) in
          let commandIds := or_else existingCommands (JArr nil) in
          let* commandIds := lift (iterate (Some commandIds)) in
          let* commands := commands_of statusFilter deviceId commandIds in
          ret (Json 200 (JObj (("commands", JArr commands) :: nil)))
    end).

Definition handleCommandUpdate (body : json) (deviceId commandId : string)
    (auth : json) (clock : Z) : store -> response * store :=
  try_catch (
    let* commandJson := kv_get ("command:" +:+ deviceId +:+ ":" +:+ commandId) in
    match commandJson with
    | None => ret (Json 404 (error "Command not found"))
    | Some command =>
        let* deviceJson := kv_get ("device:" +:+ deviceId) in
        match deviceJson with
        | None => ret (Json 404 (error "Device not found"))
        | Some device =>
            let* owner := prop device "userId" in
            let* caller := prop auth "userId" in
            let hasAccess := strict_eq owner caller in
            let* hasAccess :=
              if negb hasAccess then
                let* childId := prop device "childId" in
                let* childKey := template "child:" childId in
                let* childJson := kv_get childKey in
                match childJson with
                | Some child =>
                    let* familyId := prop child "familyId" in
                    let* familyKey := template "family:" familyId in
                    let* familyJson := kv_get familyKey in
                    match familyJson with
                    | Some family =>
                        let* guardians := prop family "guardians" in
                        lift (includes guardians caller)
                    | None => ret hasAccess
                    end
                | None => ret hasAccess
                end
              else ret hasAccess in
            if negb hasAccess then ret unauthorized
            else
              let* status := prop body "status" in
              let* result := prop body "result" in
              let* command :=
                if truthy status then lift (set_prop command "status" (element status))
                else ret command in
              let* command :=
                if truthy result then lift (set_prop command "result" (element result))
                else ret command in
              let* command := lift (set_prop command "updatedAt" (JNum clock)) in
              do kv_put ("command:" +:+ deviceId +:+ ":" +:+ commandId) command then
              ret (Json 200 (JObj (("success", JBool true)
                                   :: ("command", command) :: nil)))
        end
    end).

Definition handleDeviceUpdate (body : json) (deviceId : string) (auth : json)
    (clock : Z) : store -> response * store :=
  try_catch (
    let* deviceJson := kv_get ("device:" +:+ deviceId) in
    match deviceJson with
    | None => ret (Json 404 (error "Device not found"))
    | Some device =>
        let* owner := prop device "userId" in
        let* caller := prop auth "userId" in
        let hasAccess := strict_eq owner caller in
        let* hasAccess :=
          if negb hasAccess then
            let* childId := prop device "childId" in
            let* childKey := template "child:" childId in
            let* childJson := kv_get childKey in
            match childJson with
            | Some child =>
                let* familyId := prop child "familyId" in
                let* familyKey := template "family:" familyId in
                let* familyJson := kv_get familyKey in
                match familyJson with
                | Some family =>
                    let* guardians := prop family "guardians" in
                    lift (includes guardians caller)
                | None => ret hasAccess
                end
            | None => ret hasAccess
            end
          else ret hasAccess in
        if negb hasAccess then ret unauthorized
        else
          let* name := prop body "name" in
          let* status := prop body "status" in
          let* device :=
            if truthy name then lift (set_prop device "name" (element name))
            else ret device in
          let* device :=
            if truthy status then lift (set_prop device "status" (element status))
            else ret device in
          let* device := lift (set_prop device "updatedAt" (JNum clock)) in
          do kv_put ("device:" +:+ deviceId) device then
          ret (Json 200 (JObj (("success", JBool true) :: ("device", device) :: nil)))
    end).

Definition handleChildUpdate (body : json) (childId : string) (auth : json)
    (clock : Z) : store -> response * store :=
  try_catch (
    let* childJson := kv_get ("child:" +:+ childId) in
    match childJson with
    | None => ret (Json 404 (error "Child not found"))
    | Some child =>
        let* familyId := prop child "familyId" in
        let* familyKey := template "family:" familyId in
        let* familyJson := kv_get familyKey in
        match familyJson with
        | None => ret (Json 404 (error "Family not found"))
        | Some family =>
            let* guardians := prop family "guardians" in
            let* caller := prop auth "userId" in
            let* listed := lift (includes guardians caller) in
            if negb listed then ret unauthorized
            else
              let* name := prop body "name" in
              let* userId := prop body "userId" in
              let* child :=
                if truthy name then lift (set_prop child "name" (element name))
                else ret child in
              let* child :=
                match userId with
                | Some linked => lift (set_prop child "userId" linked)
                | None => ret child
                end in
              let* child := lift (set_prop child "updatedAt" (JNum clock)) in
              do kv_put ("child:" +:+ childId) child then
              ret (Json 200 (JObj (("success", JBool true) :: ("child", child) :: nil)))
        end
    end).

Definition handleDeviceRegistration (body auth : json) (clock : Z) (uuid : string)
  : store -> response * store :=
  try_catch (
    let* name := prop body "name" in
    let* type := prop body "type" in
    let* childId := prop body "childId" in
    if negb (truthy name) || negb (truthy type) || negb (truthy childId)
    then ret (Json 400 (error "Name, type, and child ID are required"))
    else
      let* childKey := template "child:" childId in
      let* childJson := kv_get childKey in
      match childJson with
      | None => ret (Json 404 (error "Child not found"))
      | Some child =>
          let* familyId := prop child "familyId" in
          let* familyKey := template "family:" familyId in
          let* familyJson := kv_get familyKey in
          match familyJson with
          | None => ret (Json 404 (error "Family not found"))
          | Some family =>
              let* guardians := prop family "guardians" in
              let* caller := prop auth "userId" in
              let* listed := lift (includes guardians caller) in
              let* linked := prop child "userId" in
              if negb listed && negb (strict_eq linked caller)
              then ret unauthorized
              else
                let deviceId := uuid in
                let device :=
                  JObj (literal (("id", Some (JStr deviceId)) :: ("name", name)
                                 :: ("type", type) :: ("childId", childId)
                                 :: ("userId", caller)
                                 :: ("status", Some (JStr "active"))
                                 :: ("createdAt", Some (JNum clock))
                                 :: ("updatedAt", Some (JNum clock)) :: nil)) in
                do kv_put ("device:" +:+ deviceId) device then
                let* devices := prop child "devices" in
                let* devices := lift (push devices (Some (JStr deviceId))) in
                let* child := lift (set_prop child "devices" devices) in
                do kv_put childKey child then
                ret (Json 200 (JObj (("success", JBool true)
                                     :: ("device", device) :: nil)))
          end
      end).

Definition handleVerify (body : json) (clock : Z) : store -> response * store :=
  try_catch (
    let* token := prop body "token" in
    match token with
    | Some t =>
        if negb (truthy token)
        then ret (Json 400 (error "Token is required"))
        else
          match verifyJWT clock t with
          | Invalid reason => ret (Json 401 (error reason))
          | Valid payload =>
              ret (Json 200 (JObj (("valid", JBool true)
                                   :: ("payload", payload) :: nil)))
          end
    | None => ret (Json 400 (error "Token is required"))
    end).

Definition handleFamilyCreation (body auth : json) (clock : Z) (uuid : string)
  : store -> response * store :=
  try_catch (
    let* name := prop body "name" in
    if negb (truthy name)
    then ret (Json 400 (error "Family name is required"))
    else
      let familyId := uuid in
      let* caller := prop auth "userId" in
      let family :=
        JObj (literal (("id", Some (JStr familyId)) :: ("name", name)
                       :: ("guardians", Some (JArr (element caller :: nil)))
                       :: ("children", Some (JArr nil))
                       :: ("createdAt", Some (JNum clock))
                       :: ("createdBy", caller)
                       :: ("updatedAt", Some (JNum clock)) :: nil)) in
      do kv_put ("family:" +:+ familyId) family then
      let* userFamiliesKey := template "userFamilies:" caller in
      let* existingFamilies := kv_get userFamiliesKey in
      let userFamilies := or_else existingFamilies (JArr nil) in
      let* userFamilies := lift (push (Some userFamilies) (Some (JStr familyId))) in
      do kv_put userFamiliesKey userFamilies then
      ret (Json 200 (JObj (("success", JBool true) :: ("family", family) :: nil)))).

Definition handleFamilyRetrieval (includeChildren : bool) (familyId : string)
    (auth : json) : store -> response * store :=
  try_catch (
    let* familyJson := kv_get ("family:" +:+ familyId) in
    match familyJson with
    | None => ret (Json 404 (error "Family not found"))
    | Some family =>
        let* guardians := prop family "guardians" in
        let* caller := prop auth "userId" in
        let* listed := lift (includes guardians caller) in
        if negb listed then ret unauthorized
        else if includeChildren then
          let* ids := prop family "children" in
          let* ids := lift (iterate ids) in
          let* children := collect "child:" ids in
          ret (Json 200 (JObj (obj_set (own_props family) "childrenDetails"
                                 (JArr children))))
        else ret (Json 200 family)
    end).

Definition handleChildCreation (body auth : json) (clock : Z) (uuid : string)
  : store -> response * store :=
  try_catch (
    let* name := prop body "name" in
    let* familyId := prop body "familyId" in
    let* userId := prop body "userId" in
    if negb (truthy name) || negb (truthy familyId)
    then ret (Json 400 (error "Name and family ID are required"))
    else
      let* familyKey := template "family:" familyId in
      let* familyJson := kv_get familyKey in
      match familyJson with
      | None => ret (Json 404 (error "Family not found"))
      | Some family =>
          let* guardians := prop family "guardians" in
          let* caller := prop auth "userId" in
          let* listed := lift (includes guardians caller) in
          if negb listed then ret unauthorized
          else
            let childId := uuid in
            let child :=
              JObj (literal (("id", Some (JStr childId)) :: ("name", name)
                             :: ("familyId", familyId)
                             :: ("userId", Some (or_else userId JNull))
                             :: ("devices", Some (JArr nil))
                             :: ("createdAt", Some (JNum clock))
                             :: ("createdBy", caller)
                             :: ("updatedAt", Some (JNum clock)) :: nil)) in
            do kv_put ("child:" +:+ childId) child then
            let* children := prop family "children" in
            let* children := lift (push children (Some (JStr childId))) in
            let* family := lift (set_prop family "children" children) in
            do kv_put familyKey family then
            ret (Json 200 (JObj (("success", JBool true) :: ("child", child) :: nil)))
      end).

End Handlers.

End Worker.

(** ** Routing *)

Module Router.

Import Json Js Jwt Worker.

(** What the worker reads of a request. [body] is [None] when the body is
    not JSON, and [request.json()] throws. *)
Record request := {
  method : string;
  pathname : string;
  searchParams : list (string * string);
  authorization : option string;
  body : option json
}.

(** The answers of the routers besides those of the handlers: the text
    ['Not found'] with status 404, and the empty answer to [OPTIONS]. *)
Inductive reply :=
| Answer (r : response)
| NotFound
| Preflight.

(** [url.searchParams.get(k)] *)
Fixpoint search_get (k : string) (l : list (string * string)) : option string :=
  match l with
  | nil => None
  | (k', v) :: rest => if String.eqb k' k then Some v else search_get k rest
  end.

(** [url.searchParams.get(k) === 'true'] *)
Definition flag (r : request) (k : string) : bool :=
  match search_get k (searchParams r) with
  | Some v => String.eqb v "true"
  | None => false
  end.

(** [url.pathname.split('/').filter(Boolean)] *)
Definition pathParts (r : request) : list string :=
  List.filter (fun part => negb (String.eqb part EmptyString))
    (split_on "/"%char (pathname r)).

(** A body that is not JSON throws where the handler reads it; so does
    the body [null], at the same place and with the same answer. *)
Definition parsed (r : request) : json :=
  match body r with
  | Some b => b
  | None => JNull
  end.

Definition answer (run : store -> response * store) (s : store) : reply * store :=
  let '(r, s') := run s in (Answer r, s').

Section Routes.

Context `{Platform}.

(** The first lines of [handleLocation], [handleCommand], [handleFamily],
    [handleChild] and [handleDevice], which are the same: the bearer token
    of the request is verified, and its payload is handed on. *)
Definition authenticated (r : request) (clock : Z)
    (route : json -> store -> reply * store) : store -> reply * store :=
  match authorization r with
  | None => fun s => (Answer (Json 401 (error "Unauthorized")), s)
  | Some authHeader =>
      if String.eqb authHeader EmptyString || negb (is_prefix "Bearer " authHeader)
      then fun s => (Answer (Json 401 (error "Unauthorized")), s)
      else
        let token := split_on " "%char authHeader !! 1%nat in
        let authResult :=
          match token with
          | Some t => verifyJWT clock (JStr t)
          | None => invalid_format
          end in
        match authResult with
        | Invalid reason => fun s => (Answer (Json 401 (error reason)), s)
        | Valid payload => route payload
        end
  end.

Definition handleAuth (r : request) (clock : Z) (uuid : string)
  : store -> reply * store :=
  if String.eqb (pathname r) "/api/auth/register" && String.eqb (method r) "POST"
  then answer (handleRegister (parsed r) clock uuid)
  else if String.eqb (pathname r) "/api/auth/login" && String.eqb (method r) "POST"
  then answer (handleLogin (parsed r) clock)
  else if String.eqb (pathname r) "/api/auth/verify" && String.eqb (method r) "POST"
  then answer (handleVerify (parsed r) clock)
  else if String.eqb (pathname r) "/api/auth/refresh" && String.eqb (method r) "POST"
  then answer (handleRefresh (parsed r) clock)
  else fun s => (NotFound, s).

Definition handleLocation (r : request) (clock : Z) : store -> reply * store :=
  authenticated r clock (fun auth =>
    match pathParts r with
    | _ :: _ :: nil =>
        if String.eqb (method r) "POST"
        then answer (handleLocationUpdate (parsed r) auth clock)
        else fun s => (NotFound, s)
    | _ :: _ :: deviceId :: nil =>
        if String.eqb (method r) "GET"
        then answer (handleLocationRetrieval (flag r "history") deviceId auth)
        else fun s => (NotFound, s)
    | _ => fun s => (NotFound, s)
    end).

Definition handleCommand (r : request) (clock : Z) (uuid : string)
  : store -> reply * store :=
  authenticated r clock (fun auth =>
    match pathParts r with
    | _ :: _ :: nil =>
        if String.eqb (method r) "POST"
        then answer (handleCommandCreation (parsed r) auth clock uuid)
        else fun s => (NotFound, s)
    | _ :: _ :: deviceId :: nil =>
        if String.eqb (method r) "GET"
        then answer (handleCommandRetrieval (search_get "status" (searchParams r))
                       deviceId auth)
        else fun s => (NotFound, s)
    | _ :: _ :: deviceId :: commandId :: nil =>
        if String.eqb (method r) "PUT"
        then answer (handleCommandUpdate (parsed r) deviceId commandId auth clock)
        else fun s => (NotFound, s)
    | _ => fun s => (NotFound, s)
    end).

Definition handleFamily (r : request) (clock : Z) (uuid : string)
  : store -> reply * store :=
  authenticated r clock (fun auth =>
    match pathParts r with
    | _ :: _ :: nil =>
        if String.eqb (method r) "POST"
        then answer (handleFamilyCreation (parsed r) auth clock uuid)
        else fun s => (NotFound, s)
    | _ :: _ :: familyId :: nil =>
        if String.eqb (method r) "GET"
        then answer (handleFamilyRetrieval (flag r "children") familyId auth)
        else if String.eqb (method r) "PUT"
        then answer (handleFamilyUpdate (parsed r) familyId auth clock)
        else fun s => (NotFound, s)
    | _ => fun s => (NotFound, s)
    end).

Definition handleChild (r : request) (clock : Z) (uuid : string)
  : store -> reply * store :=
  authenticated r clock (fun auth =>
    match pathParts r with
    | _ :: _ :: nil =>
        if String.eqb (method r) "POST"
        then answer (handleChildCreation (parsed r) auth clock uuid)
        else fun s => (NotFound, s)
    | _ :: _ :: childId :: nil =>
        if String.eqb (method r) "GET"
        then answer (handleChildRetrieval (flag r "devices") childId auth)
        else if String.eqb (method r) "PUT"
        then answer (handleChildUpdate (parsed r) childId auth clock)
        else fun s => (NotFound, s)
    | _ => fun s => (NotFound, s)
    end).

Definition handleDevice (r : request) (clock : Z) (uuid : string)
  : store -> reply * store :=
  authenticated r clock (fun auth =>
    match pathParts r with
    | _ :: _ :: nil =>
        if String.eqb (method r) "POST"
        then answer (handleDeviceRegistration (parsed r) auth clock uuid)
        else fun s => (NotFound, s)
    | _ :: _ :: deviceId :: nil =>
        if String.eqb (method r) "GET"
        then answer (handleDeviceRetrieval (flag r "location") deviceId auth)
        else if String.eqb (method r) "PUT"
        then answer (handleDeviceUpdate (parsed r) deviceId auth clock)
        else fun s => (NotFound, s)
    | _ => fun s => (NotFound, s)
    end).

Definition handleRequest (r : request) (clock : Z) (uuid : string)
  : store -> reply * store :=
  if String.eqb (method r) "OPTIONS" then fun s => (Preflight, s)
  else if is_prefix "/api/auth" (pathname r) then handleAuth r clock uuid
  else if is_prefix "/api/location" (pathname r) then handleLocation r clock
  else if is_prefix "/api/command" (pathname r) then handleCommand r clock uuid
  else if is_prefix "/api/family" (pathname r) then handleFamily r clock uuid
  else if is_prefix "/api/child" (pathname r) then handleChild r clock uuid
  else if is_prefix "/api/device" (pathname r) then handleDevice r clock uuid
  else if String.eqb (pathname r) "/api/health"
  then fun s => (Answer (Json 200 (JObj (("status", JStr "ok") :: nil))), s)
  else fun s => (NotFound, s).

End Routes.

End Router.

(** ** Auxiliary definitions of the proofs *)

(** A stand-in platform, to run the definitions on concrete requests. *)
Definition checksum (s : string) : N :=
  List.fold_right (fun c acc => (Base64.code c + 31 * acc) mod 256) 7
    (list_ascii_of_string s).

Fixpoint replicate_char (n : nat) (c : ascii) : string :=
  match n with
  | O => EmptyString
  | S n' => String c (replicate_char n' c)
  end.

Definition stand_in : Platform := {|
  JWT_SECRET := "secret";
  hmac_sha256 key data :=
    replicate_char 32 (Base64.char (checksum (key +:+ data)));
  hmac_sha256_length key data := eq_refl;
  sha256_hex data := replicate_char 64 (Json.hex_digit (checksum data mod 16));
  coerced_le _ _ := false
|}.

(** [string_forall p s]: every character of [s] satisfies [p]. *)
Fixpoint string_forall (p : ascii -> bool) (s : string) : bool :=
  match s with
  | EmptyString => true
  | String c rest => p c && string_forall p rest
  end.

(** The alphabet of [btoa], padding included. *)
Definition base64_char (c : ascii) : bool :=
  match Base64.value c with
  | Some _ => true
  | None => Base64.is_pad c
  end.

(** The URL-safe alphabet of RFC 4648: letters, digits, [-] and [_]. *)
Definition base64url_char (c : ascii) : bool :=
  let n := Base64.code c in
  ((65 <=? n) && (n <=? 90)) || ((97 <=? n) && (n <=? 122))
  || ((48 <=? n) && (n <=? 57)) || (n =? 45) || (n =? 95).

(** The six-bit groups [btoa] writes, padding left out. *)
Fixpoint groups (s : string) : list N :=
  match s with
  | EmptyString => nil
  | String a EmptyString =>
      Base64.code a / 4 :: Base64.code a mod 4 * 16 :: nil
  | String a (String b EmptyString) =>
      Base64.code a / 4 :: Base64.code a mod 4 * 16 + Base64.code b / 16
      :: Base64.code b mod 16 * 4 :: nil
  | String a (String b (String c rest)) =>
      Base64.code a / 4 :: Base64.code a mod 4 * 16 + Base64.code b / 16
      :: Base64.code b mod 16 * 4 + Base64.code c / 64
      :: Base64.code c mod 64 :: groups rest
  end.

Fixpoint digits (l : list N) : string :=
  match l with
  | nil => EmptyString
  | n :: rest => String (Base64.digit n) (digits rest)
  end.

(** A token whose characters, the separating dots apart, all belong to
    the URL-safe alphabet. *)
Definition base64url_token (t : string) : bool :=
  forallb (string_forall base64url_char) (Jwt.split_on "."%char t).

(** The number of dot-separated segments of a token. *)
Definition segment_count (t : string) : nat :=
  length (Jwt.split_on "."%char t).

(** A text between double quotes. *)
Definition in_quotes (s : string) : string :=
  String Json.dquote (s +:+ String Json.dquote EmptyString).

(** The text [{"alg":"HS256","typ":"JWT"}]. *)
Definition header_text : string :=
  "{" +:+ in_quotes "alg" +:+ ":" +:+ in_quotes "HS256" +:+ ","
  +:+ in_quotes "typ" +:+ ":" +:+ in_quotes "JWT" +:+ "}".

(** The claims of the scenario of the specification. *)
Definition scenario : list (string * jsval) :=
  ("userId", Some (JStr "u1")) :: ("email", Some (JStr "a@b.com"))
  :: ("role", Some (JStr "guardian")) :: nil.

(** The seconds a [lifetime] stands for. *)
Definition seconds (expiresIn : Jwt.lifetime) : Z :=
  match expiresIn with
  | Jwt.SevenDays => 604800
  | Jwt.Seconds n => n
  end.

(** A token over [payload] whose third segment is the HMAC-SHA256 of the
    first two under [JWT_SECRET] taken as the raw key. *)
Definition signed_token `{Platform} (payload : json) : string :=
  let base64Header := Base64.btoa (Json.stringify Jwt.header) in
  let base64Payload := Base64.btoa (Json.stringify payload) in
  base64Header +:+ "." +:+ base64Payload +:+ "." +:+
    Base64.btoa (hmac_sha256 JWT_SECRET (base64Header +:+ "." +:+ base64Payload)).

(** A payload that expires in the year 2100. *)
Definition far_payload : json := JObj (("exp", JNum 4102444800) :: nil).

(** One step of the resolution chain Device -> Child -> Family, as each
    handler walks it: the record kept under [prefix] followed by the text
    of the referring property. [Fails] stands for a reference that throws
    when it is read or written into the key. *)
Inductive resolution :=
| Found (record : json)
| Missing
| Fails.

Definition referred (s : store) (prefix : string) (record : json) (k : string)
  : resolution :=
  match Jwt.get_prop record k with
  | Some ref =>
      match Js.text_of ref with
      | Some text =>
          match s !! (prefix +:+ text) with
          | Some found => Found found
          | None => Missing
          end
      | None => Fails
      end
  | None => Fails
  end.

Definition child_of (s : store) (device : json) : resolution :=
  referred s "child:" device "childId".

Definition family_of (s : store) (child : json) : resolution :=
  referred s "family:" child "familyId".

(** The device named by the body of a request. *)
Definition named_device (s : store) (body : json) : resolution :=
  referred s "device:" body "deviceId".

(** The caller is listed among the guardians of the family, by the test
    the handlers apply. *)
Definition is_guardian (family auth : json) : option bool :=
  match Jwt.get_prop family "guardians", Jwt.get_prop auth "userId" with
  | Some guardians, Some caller => Js.includes guardians caller
  | _, _ => None
  end.

(** The caller is the user the record names in [userId]. *)
Definition is_own (record auth : json) : option bool :=
  match Jwt.get_prop record "userId", Jwt.get_prop auth "userId" with
  | Some owner, Some caller => Some (Js.strict_eq owner caller)
  | _, _ => None
  end.

(** A record is missing on the way from a device to its family. *)
Definition chain_broken (s : store) (device : json) : bool :=
  match child_of s device with
  | Missing => true
  | Found child =>
      match family_of s child with
      | Missing => true
      | _ => false
      end
  | Fails => false
  end.

Definition family_not_found : response :=
  Json 404 (Worker.error "Family not found").

(** The body of a request holds a usable value under [k]. *)
Definition provided (body : json) (k : string) : bool :=
  match Jwt.get_prop body k with
  | Some v => Js.truthy v
  | None => false
  end.

(** The caller's identifier is held by the guardians of a family: an
    element of the array or, for guardians kept as one text, a part of
    it. *)
Definition holds (guardians caller : jsval) : Prop :=
  match guardians with
  | Some (JArr l) => In (Js.element caller) l
  | Some (JStr g) =>
      exists sub, Js.text_of caller = Some sub /\ Js.contains g sub = true
  | _ => False
  end.

(** ** Sample records *)

Definition phone : json :=
  JObj (("id", JStr "d1") :: ("name", JStr "Phone") :: ("type", JStr "android")
        :: ("childId", JStr "c1") :: ("userId", JStr "kid")
        :: ("status", JStr "active") :: nil).

Definition kim : json :=
  JObj (("id", JStr "c1") :: ("name", JStr "Kim") :: ("familyId", JStr "f1")
        :: ("userId", JStr "kid") :: ("devices", JArr (JStr "d1" :: nil)) :: nil).

Definition home : json :=
  JObj (("id", JStr "f1") :: ("name", JStr "Home")
        :: ("guardians", JArr (JStr "mum" :: nil))
        :: ("children", JArr (JStr "c1" :: nil)) :: nil).

(** A family with its child and the child's device. *)
Definition household : store :=
  <["device:d1" := phone]> (<["child:c1" := kim]> (<["family:f1" := home]> ∅)).

(** The same records without the family. *)
Definition orphaned : store :=
  <["device:d1" := phone]> (<["child:c1" := kim]> ∅).

(** The claims of a verified token. *)
Definition auth_of (userId role : string) : json :=
  JObj (("userId", JStr userId) :: ("email", JStr "a@b.com") :: ("role", JStr role)
        :: ("iat", JNum 1700000000) :: ("exp", JNum 1700604800) :: nil).

(** A location update for the sample device. *)
Definition sample_update : json :=
  JObj (("deviceId", JStr "d1")
        :: ("location", JObj (("latitude", JNum 52) :: ("longitude", JNum 13) :: nil))
        :: nil).

(** A replacement of the guardians that leaves the acting user out. *)
Definition sample_replacement : json :=
  JObj (("guardians", JArr (JStr "dad" :: nil)) :: nil).

(** A registration. *)
Definition sample_registration : json :=
  JObj (("email", JStr "a@b.com") :: ("password", JStr "secret")
        :: ("name", JStr "Ann") :: ("role", JStr "guardian") :: nil).

(** The claims [handleRefresh] copies from a verified payload. *)
Definition refreshed_claims (userId email role : jsval) : list (string * jsval) :=
  ("userId", userId) :: ("email", email) :: ("role", role) :: nil.

(** The two grounds on which the handlers of a device let a caller
    through: the device names the caller as its user, or the caller is a
    guardian of the family of the device's child. *)
Definition may_access_device (s : store) (device auth : json) : Prop :=
  is_own device auth = Some true
  \/ exists child family,
      child_of s device = Found child
      /\ family_of s child = Found family
      /\ is_guardian family auth = Some true.

(** The caller is the user a child is linked to. *)
Definition is_linked (child auth : json) : option bool := is_own child auth.

(** ** Requests *)

(** The token a request bears: the second of the parts of its
    [Authorization] header between blanks, when the header starts with
    ["Bearer "]. *)
Definition bearer (r : Router.request) : option string :=
  match Router.authorization r with
  | Some authHeader =>
      if Js.is_prefix "Bearer " authHeader
      then Jwt.split_on " "%char authHeader !! 1%nat
      else None
  | None => None
  end.

(** The payload of the token a request bears, when [verifyJWT] accepts
    the token. *)
Definition verified `{Platform} (r : Router.request) (clock : Z) : option json :=
  match bearer r with
  | Some t =>
      match Jwt.verifyJWT clock (JStr t) with
      | Jwt.Valid payload => Some payload
      | Jwt.Invalid _ => None
      end
  | None => None
  end.

(** The paths behind the bearer token. *)
Definition protected (r : Router.request) : bool :=
  negb (Js.is_prefix "/api/auth" (Router.pathname r))
  && (Js.is_prefix "/api/location" (Router.pathname r)
      || Js.is_prefix "/api/command" (Router.pathname r)
      || Js.is_prefix "/api/family" (Router.pathname r)
      || Js.is_prefix "/api/child" (Router.pathname r)
      || Js.is_prefix "/api/device" (Router.pathname r)).

(** A request for a device's record with the token [t]. *)
Definition sample_request (t : string) : Router.request :=
  {| Router.method := "GET";
     Router.pathname := "/api/device/d1";
     Router.searchParams := nil;
     Router.authorization := Some ("Bearer " +:+ t);
     Router.body := None |}.

(** Requests of a guardian: a family, a second child, a second device, a
    command and a new name for the sample device. *)
Definition sample_family : json := JObj (("name", JStr "Home") :: nil).

Definition sample_child : json :=
  JObj (("name", JStr "Lee") :: ("familyId", JStr "f1") :: nil).

Definition sample_device : json :=
  JObj (("name", JStr "Tablet") :: ("type", JStr "android")
        :: ("childId", JStr "c1") :: nil).

Definition sample_command : json :=
  JObj (("deviceId", JStr "d1") :: ("type", JStr "lock") :: nil).

Definition sample_rename : json := JObj (("name", JStr "Old phone") :: nil).

(** The household with two commands for its device, one of them done. *)
Definition busy : store :=
  <["commands:d1" := JArr (JStr "k2" :: JStr "k1" :: nil)]>
    (<["command:d1:k2" := JObj (("id", JStr "k2") :: ("status", JStr "pending") :: nil)]>
       (<["command:d1:k1" := JObj (("id", JStr "k1") :: ("status", JStr "done") :: nil)]>
          household)).

(** A registration as the worker receives it. *)
Definition sample_signup : Router.request :=
  {| Router.method := "POST";
     Router.pathname := "/api/auth/register";
     Router.searchParams := nil;
     Router.authorization := None;
     Router.body := Some sample_registration |}.

(** * Properties *)

Ltac Zify.zify_post_hook ::= Z.to_euclidean_division_equations.

(** ** Base64 *)

Module Base64Facts.

Import Base64.

Lemma string_ind3 (P : string -> Prop) :
  P EmptyString ->
  (forall a, P (String a EmptyString)) ->
  (forall a b, P (String a (String b EmptyString))) ->
  (forall a b c rest, P rest -> P (String a (String b (String c rest)))) ->
  forall s, P s.
Proof.
  intros H0 H1 H2 H3.
  fix IH 1.
  intros [|a [|b [|c rest]]].
  - exact H0.
  - apply H1.
  - apply H2.
  - apply H3, IH.
Qed.

Lemma below_64 (p : N -> bool) :
  forallb p (List.map N.of_nat (seq 0 64)) = true ->
  forall n, n < 64 -> p n = true.
Proof.
  intros Hall n Hn.
  rewrite List.forallb_forall in Hall.
  apply Hall, List.in_map_iff.
  exists (N.to_nat n); split; [lia|].
  apply List.in_seq; lia.
Qed.

Lemma code_lt c : code c < 256.
Proof. apply N_ascii_bounded. Qed.

Lemma char_code c : char (code c) = c.
Proof. apply ascii_N_embedding. Qed.

Lemma value_digit n : n < 64 -> value (digit n) = Some n.
Proof.
  intros Hn.
  pose proof (below_64 (fun n => match value (digit n) with
                                 | Some m => m =? n
                                 | None => false
                                 end) eq_refl n Hn) as Hp.
  simpl in Hp.
  destruct (value (digit n)) as [m|]; [|discriminate].
  apply N.eqb_eq in Hp; congruence.
Qed.

Lemma digit_not_pad n : n < 64 -> is_pad (digit n) = false.
Proof.
  intros Hn.
  apply negb_true_iff.
  exact (below_64 (fun n => negb (is_pad (digit n))) eq_refl n Hn).
Qed.

Lemma digit_not_whitespace n : n < 64 -> is_whitespace (digit n) = false.
Proof.
  intros Hn.
  apply negb_true_iff.
  exact (below_64 (fun n => negb (is_whitespace (digit n))) eq_refl n Hn).
Qed.

Lemma digit_base64_char n : n < 64 -> base64_char (digit n) = true.
Proof.
  intros Hn. unfold base64_char. now rewrite value_digit.
Qed.

Lemma groups_bound s : Forall (fun n => n < 64) (groups s).
Proof.
  induction s as [|a|a b|a b c rest IH] using string_ind3; simpl.
  - constructor.
  - pose proof (code_lt a). repeat constructor; lia.
  - pose proof (code_lt a); pose proof (code_lt b). repeat constructor; lia.
  - pose proof (code_lt a); pose proof (code_lt b); pose proof (code_lt c).
    repeat (constructor; [lia|]). exact IH.
Qed.

Lemma decode_groups s : decode (groups s) = s.
Proof.
  induction s as [|a|a b|a b c rest IH] using string_ind3; simpl.
  - reflexivity.
  - pose proof (code_lt a).
    replace (code a / 4 * 4 + code a mod 4 * 16 / 16) with (code a) by lia.
    now rewrite char_code.
  - pose proof (code_lt a); pose proof (code_lt b).
    replace (code a / 4 * 4 + (code a mod 4 * 16 + code b / 16) / 16)
      with (code a) by lia.
    replace ((code a mod 4 * 16 + code b / 16) mod 16 * 16 + code b mod 16 * 4 / 4)
      with (code b) by lia.
    now rewrite !char_code.
  - pose proof (code_lt a); pose proof (code_lt b); pose proof (code_lt c).
    replace (code a / 4 * 4 + (code a mod 4 * 16 + code b / 16) / 16)
      with (code a) by lia.
    replace ((code a mod 4 * 16 + code b / 16) mod 16 * 16
             + (code b mod 16 * 4 + code c / 64) / 4)
      with (code b) by lia.
    replace ((code b mod 16 * 4 + code c / 64) mod 4 * 64 + code c mod 64)
      with (code c) by lia.
    rewrite !char_code.
    destruct (groups rest) as [|g0 [|g1 [|g2 [|g3 more]]]] eqn:Hg;
      rewrite <- IH; simpl; reflexivity.
Qed.

Lemma strip_padding_cons c s :
  is_pad c = false -> strip_padding (String c s) = String c (strip_padding s).
Proof.
  intros Hc.
  destruct s as [|x [|y t]]; simpl; rewrite ?Hc; reflexivity.
Qed.

Lemma btoa_length s : N.of_nat (String.length (btoa s)) mod 4 = 0.
Proof.
  induction s as [|a|a b|a b c rest IH] using string_ind3; simpl String.length;
    try reflexivity.
  lia.
Qed.

Lemma strip_padding_btoa s : strip_padding (btoa s) = digits (groups s).
Proof.
  induction s as [|a|a b|a b c rest IH] using string_ind3.
  - reflexivity.
  - pose proof (code_lt a). cbn [btoa groups digits].
    do 2 (rewrite strip_padding_cons by (apply digit_not_pad; lia)).
    reflexivity.
  - pose proof (code_lt a); pose proof (code_lt b). cbn [btoa groups digits].
    do 3 (rewrite strip_padding_cons by (apply digit_not_pad; lia)).
    reflexivity.
  - pose proof (code_lt a); pose proof (code_lt b); pose proof (code_lt c).
    cbn [btoa groups digits].
    do 4 (rewrite strip_padding_cons by (apply digit_not_pad; lia)).
    now rewrite IH.
Qed.

Lemma strip_whitespace_btoa s : strip_whitespace (btoa s) = btoa s.
Proof.
  induction s as [|a|a b|a b c rest IH] using string_ind3.
  - reflexivity.
  - pose proof (code_lt a). cbn [btoa strip_whitespace].
    rewrite !digit_not_whitespace by lia. reflexivity.
  - pose proof (code_lt a); pose proof (code_lt b). cbn [btoa strip_whitespace].
    rewrite !digit_not_whitespace by lia. reflexivity.
  - pose proof (code_lt a); pose proof (code_lt b); pose proof (code_lt c).
    cbn [btoa strip_whitespace].
    rewrite !digit_not_whitespace by lia. now rewrite IH.
Qed.

Lemma groups_length s : N.of_nat (String.length (digits (groups s))) mod 4 <> 1.
Proof.
  induction s as [|a|a b|a b c rest IH] using string_ind3;
    cbn [groups digits String.length]; try (compute; discriminate).
  lia.
Qed.

Lemma values_digits l :
  Forall (fun n => n < 64) l -> values (digits l) = Some l.
Proof.
  induction 1 as [|n l Hn _ IH]; simpl.
  - reflexivity.
  - now rewrite value_digit, IH.
Qed.

(** [atob] undoes [btoa]. *)
Lemma atob_btoa s : atob (btoa s) = Some s.
Proof.
  unfold atob.
  rewrite strip_whitespace_btoa, btoa_length, N.eqb_refl, strip_padding_btoa.
  destruct (N.eqb_spec (N.of_nat (String.length (digits (groups s))) mod 4) 1)
    as [Hone|_].
  - now apply groups_length in Hone.
  - now rewrite values_digits, decode_groups by apply groups_bound.
Qed.

(** [btoa] writes characters of its alphabet and [=] only. *)
Lemma btoa_base64_chars s : string_forall base64_char (btoa s) = true.
Proof.
  induction s as [|a|a b|a b c rest IH] using string_ind3.
  - reflexivity.
  - pose proof (code_lt a). cbn [btoa string_forall].
    rewrite !digit_base64_char by lia. reflexivity.
  - pose proof (code_lt a); pose proof (code_lt b). cbn [btoa string_forall].
    rewrite !digit_base64_char by lia. reflexivity.
  - pose proof (code_lt a); pose proof (code_lt b); pose proof (code_lt c).
    cbn [btoa string_forall].
    rewrite !digit_base64_char by lia. now rewrite IH.
Qed.

End Base64Facts.

(** ** The token helpers *)

Module JwtFacts.

Import Base64 Json Jwt Base64Facts.

Definition not_dot (c : ascii) : bool := negb (Ascii.eqb c "."%char).

Lemma split_on_nonempty sep s : split_on sep s <> nil.
Proof.
  destruct s as [|c rest]; simpl; [discriminate|].
  destruct (Ascii.eqb c sep); [discriminate|].
  destruct (split_on sep rest); discriminate.
Qed.

(** Splitting commutes with joining by the separator. *)
Lemma split_on_join sep x y :
  split_on sep (x +:+ String sep y) = (split_on sep x ++ split_on sep y)%list.
Proof.
  induction x as [|c x IH]; simpl.
  - now rewrite Ascii.eqb_refl.
  - destruct (Ascii.eqb c sep); [now rewrite IH|].
    rewrite IH.
    pose proof (split_on_nonempty sep x).
    destruct (split_on sep x); [congruence|reflexivity].
Qed.

Lemma split_on_whole s :
  string_forall not_dot s = true -> split_on "."%char s = s :: nil.
Proof.
  induction s as [|c s IH]; simpl; [reflexivity|].
  intros [Hc Hs]%andb_true_iff.
  unfold not_dot in Hc. apply negb_true_iff in Hc.
  now rewrite Hc, IH.
Qed.

Lemma base64_char_not_dot c : base64_char c = true -> not_dot c = true.
Proof.
  unfold not_dot. destruct (Ascii.eqb_spec c "."%char) as [->|_]; [|reflexivity].
  discriminate.
Qed.

Lemma string_forall_impl (p q : ascii -> bool) s :
  (forall c, p c = true -> q c = true) ->
  string_forall p s = true -> string_forall q s = true.
Proof.
  intros Hpq. induction s as [|c s IH]; simpl; [reflexivity|].
  intros [Hc Hs]%andb_true_iff. now rewrite (Hpq c Hc), IH.
Qed.

Lemma btoa_no_dot s : string_forall not_dot (btoa s) = true.
Proof.
  eapply string_forall_impl; [apply base64_char_not_dot|apply btoa_base64_chars].
Qed.

(** Three segments written by [btoa] are found again by [split]. *)
Lemma split_on_three a b c :
  split_on "."%char (btoa a +:+ "." +:+ btoa b +:+ "." +:+ btoa c)
  = btoa a :: btoa b :: btoa c :: nil.
Proof.
  change (btoa a +:+ "." +:+ btoa b +:+ "." +:+ btoa c)
    with (btoa a +:+ String "."%char (btoa b +:+ String "."%char (btoa c))).
  rewrite !split_on_join, !split_on_whole by apply btoa_no_dot.
  reflexivity.
Qed.

Section Token.

Context `{Platform}.

(** The token [generateJWT] returns, segment by segment: its third segment
    is empty. *)
Lemma generateJWT_segments clock payload expiresIn :
  exists tokenPayload,
    generateJWT clock payload expiresIn
    = btoa (stringify header) +:+ "." +:+ btoa (stringify tokenPayload)
      +:+ "." +:+ btoa EmptyString.
Proof. eexists. reflexivity. Qed.

(** [verifyJWT] once the payload is known not to have expired: the
    signature segment does not decode, or [crypto.subtle.verify] rejects
    the text key; both are caught. *)
Lemma verifyJWT_unexpired clock t h p more text payload exp :
  split_on "."%char t = h :: p :: more ->
  atob p = Some text ->
  parse text = Some payload ->
  get_prop payload "exp" = Some exp ->
  js_le exp (clock / 1000) = false ->
  verifyJWT clock (JStr t) = invalid_format.
Proof.
  intros Hsplit Hp Htext Hexp Hle.
  unfold verifyJWT. rewrite Hsplit. cbn [lookup list_lookup to_text].
  rewrite Hp, Htext, Hexp, Hle.
  destruct (atob (to_text (more !! 0%nat))); reflexivity.
Qed.

(** No token is accepted. *)
Lemma verifyJWT_never_valid clock token payload :
  verifyJWT clock token <> Valid payload.
Proof.
  unfold verifyJWT. destruct token; try discriminate.
  destruct (atob _); [|discriminate].
  destruct (parse _); [|discriminate].
  destruct (get_prop _ _); [|discriminate].
  destruct (js_le _ _); [discriminate|].
  destruct (atob _); discriminate.
Qed.

End Token.

End JwtFacts.

Module TokenClaims.

Import Base64 Json Jwt Base64Facts JwtFacts.

(** The token does not depend on the platform: the signature never
    reaches it. *)
Lemma generateJWT_platform_independent (P Q : Platform) clock payload expiresIn :
  @generateJWT P clock payload expiresIn = @generateJWT Q clock payload expiresIn.
Proof. reflexivity. Qed.

(** C1, as the code has it: for every claims object and every lifetime,
    verifying the token that [generateJWT] has just issued fails. The
    signature segment is empty, because [generateJWT] does not await
    [crypto.subtle.sign]; and [verifyJWT] hands the text [JWT_SECRET] to
    [crypto.subtle.verify], whose rejection it catches. *)
Theorem issued_token_is_rejected (P : Platform) clock payload expiresIn :
  exists reason,
    verifyJWT clock (JStr (generateJWT clock payload expiresIn)) = Invalid reason.
Proof.
  destruct (generateJWT_segments clock payload expiresIn) as [tokenPayload ->].
  unfold verifyJWT.
  rewrite split_on_three. cbn [lookup list_lookup to_text].
  rewrite atob_btoa.
  destruct (parse _) as [decoded|]; [|now eexists].
  destruct (get_prop decoded "exp") as [exp|]; [|now eexists].
  destruct (js_le exp _); [now eexists|].
  change (btoa EmptyString) with EmptyString.
  change (atob EmptyString) with (Some EmptyString).
  cbn [await subtle_verify].
  now eexists.
Qed.

(** The scenario of the specification, run: the token is reported as
    malformed. *)
Example scenario_is_rejected (P : Platform) :
  verifyJWT 1700000000000 (JStr (generateJWT 1700000000000 scenario (Seconds 3600)))
  = Invalid "Invalid token format".
Proof.
  eapply verifyJWT_unexpired.
  - vm_compute. reflexivity.
  - vm_compute. reflexivity.
  - vm_compute. reflexivity.
  - vm_compute. reflexivity.
  - vm_compute. reflexivity.
Qed.

(** Segments after the third are never read. *)
Lemma extra_segments_ignored (P : Platform) clock t extra :
  (3 <= segment_count t)%nat ->
  verifyJWT clock (JStr (t +:+ "." +:+ extra)) = verifyJWT clock (JStr t).
Proof.
  unfold segment_count, verifyJWT. intros Hcount.
  change (t +:+ "." +:+ extra) with (t +:+ String "."%char extra).
  rewrite split_on_join.
  destruct (split_on "."%char t) as [|a [|b [|c more]]]; simpl in Hcount; try lia.
  reflexivity.
Qed.

Lemma signed_token_segments (P : Platform) payload :
  split_on "."%char (signed_token payload)
  = btoa (stringify header) :: btoa (stringify payload)
    :: btoa (hmac_sha256 JWT_SECRET
               (btoa (stringify header) +:+ "." +:+ btoa (stringify payload)))
    :: nil.
Proof. apply split_on_three. Qed.

(** C2 at a token of a wrong segment count: a token of two segments
    whose payload has expired is reported as expired, not as malformed. *)
Theorem wrong_segment_count_not_rejected (P : Platform) :
  segment_count "e30=.eyJleHAiOjB9" = 2%nat
  /\ verifyJWT 1700000000000 (JStr "e30=.eyJleHAiOjB9") = Invalid "Token expired".
Proof. split; reflexivity. Qed.

(** A token without a dot is always reported as malformed. *)
Lemma one_segment_invalid_format (P : Platform) clock t :
  segment_count t = 1%nat -> verifyJWT clock (JStr t) = invalid_format.
Proof.
  unfold segment_count, verifyJWT. intros Hcount.
  destruct (split_on "."%char t) as [|a [|b more]]; try discriminate.
  reflexivity.
Qed.

(** A token of two segments is never accepted. *)
Lemma two_segments_never_valid (P : Platform) clock t payload :
  segment_count t = 2%nat -> verifyJWT clock (JStr t) <> Valid payload.
Proof.
  unfold segment_count, verifyJWT. intros Hcount.
  destruct (split_on "."%char t) as [|a [|b [|c more]]]; try discriminate.
  cbn [lookup list_lookup to_text].
  destruct (atob b); [|discriminate].
  destruct (parse _); [|discriminate].
  destruct (get_prop _ _); [|discriminate].
  destruct (js_le _ _); discriminate.
Qed.

(** C7: a token whose payload decodes to an [exp] equal to the second of
    the verification is reported as expired, whatever its signature and
    the number of its segments. *)
Theorem expiry_boundary_is_expired (P : Platform) clock t h p more text payload :
  split_on "."%char t = h :: p :: more ->
  atob p = Some text ->
  parse text = Some payload ->
  get_prop payload "exp" = Some (Some (JNum (clock / 1000))) ->
  verifyJWT clock (JStr t) = Invalid "Token expired".
Proof.
  intros Hsplit Hp Htext Hexp.
  unfold verifyJWT. rewrite Hsplit. cbn [lookup list_lookup to_text].
  rewrite Hp, Htext, Hexp. cbn [js_le].
  now rewrite Z.leb_refl.
Qed.

Lemma expiry_boundary_witness :
  @verifyJWT stand_in 1700000000999
    (JStr (btoa (stringify header) +:+ "."
           +:+ btoa (stringify (JObj (("exp", JNum 1700000000) :: nil)))
           +:+ "." +:+ btoa "signature"))
  = Invalid "Token expired".
Proof.
  eapply (expiry_boundary_is_expired stand_in 1700000000999).
  - apply split_on_three.
  - apply atob_btoa.
  - vm_compute. reflexivity.
  - reflexivity.
Defined.

(** An expiry in the past is reported in the same way. *)
Lemma past_expiry_is_expired (P : Platform) clock t h p more text payload exp :
  split_on "."%char t = h :: p :: more ->
  atob p = Some text ->
  parse text = Some payload ->
  get_prop payload "exp" = Some (Some (JNum exp)) ->
  (exp <= clock / 1000)%Z ->
  verifyJWT clock (JStr t) = Invalid "Token expired".
Proof.
  intros Hsplit Hp Htext Hexp Hle.
  unfold verifyJWT. rewrite Hsplit. cbn [lookup list_lookup to_text].
  rewrite Hp, Htext, Hexp. cbn [js_le].
  apply Z.leb_le in Hle. now rewrite Hle.
Qed.

(** *** The wire format *)

Lemma literal_app l1 l2 : literal (l1 ++ l2) = (literal l1 ++ literal l2)%list.
Proof.
  induction l1 as [|[k [v|]] l1 IH]; simpl; [reflexivity| |assumption].
  now rewrite IH.
Qed.

Lemma obj_get_app_absent k l1 l2 :
  existsb (fun kv => String.eqb (fst kv) k) l1 = false ->
  obj_get k (literal (l1 ++ l2)) = obj_get k (literal l2).
Proof.
  induction l1 as [|[k' [v|]] l1 IH]; simpl; [reflexivity|..];
    intros [Hk Hrest]%orb_false_iff; [|now apply IH].
  rewrite Hk. now apply IH.
Qed.

Lemma obj_get_spread_set_eq l k v :
  obj_get k (literal (spread_set l k (Some v))) = Some v.
Proof.
  unfold spread_set.
  destruct (existsb _ l) eqn:Hexists.
  - induction l as [|[k' x] l IH]; simpl in *; [discriminate|].
    destruct (String.eqb k' k) eqn:Hk; simpl.
    + now rewrite Hk.
    + destruct x as [w|]; simpl; [rewrite Hk|]; now apply IH.
  - rewrite obj_get_app_absent by assumption.
    simpl. now rewrite String.eqb_refl.
Qed.

Lemma obj_get_spread_set_ne l k k' v :
  k <> k' ->
  obj_get k (literal (spread_set l k' v)) = obj_get k (literal l).
Proof.
  intros Hne. unfold spread_set.
  destruct (existsb _ l) eqn:Hexists.
  - clear Hexists.
    induction l as [|[k0 x] l IH]; simpl; [reflexivity|].
    destruct (String.eqb_spec k0 k') as [->|Hk0]; simpl.
    + assert (String.eqb k' k = false) as Hk by (apply String.eqb_neq; congruence).
      destruct v as [w|], x as [y|]; simpl; rewrite ?Hk; assumption.
    + destruct x as [y|]; simpl; [|assumption].
      destruct (String.eqb k0 k); [reflexivity|assumption].
  - rewrite literal_app.
    induction (literal l) as [|[k0 y] rest IH]; simpl.
    + destruct v as [w|]; simpl; [|reflexivity].
      assert (String.eqb k' k = false) as Hk by (apply String.eqb_neq; congruence).
      now rewrite Hk.
    + destruct (String.eqb k0 k); [reflexivity|assumption].
Qed.

Lemma header_is_header_text : stringify header = header_text.
Proof. reflexivity. Qed.

Lemma header_segment :
  btoa (stringify header) = "eyJhbGciOiJIUzI1NiIsInR5cCI6IkpXVCJ9".
Proof. reflexivity. Qed.

(** C3, amended: the token is [btoa] of the header text, a dot, [btoa]
    of the text of the payload, a dot and a signature segment; the
    segments are written in the alphabet of [btoa] (letters, digits, [+],
    [/] and the padding [=]); the header text is
    [{"alg":"HS256","typ":"JWT"}]; and the payload holds the claims with
    [iat] and [exp] in seconds. *)
Theorem generateJWT_wire_format (P : Platform) clock payload expiresIn :
  exists props signature,
    generateJWT clock payload expiresIn
    = btoa (stringify header) +:+ "." +:+ btoa (stringify (JObj props))
      +:+ "." +:+ signature
    /\ split_on "."%char (generateJWT clock payload expiresIn)
       = btoa (stringify header) :: btoa (stringify (JObj props)) :: signature :: nil
    /\ stringify header = header_text
    /\ string_forall base64_char (btoa (stringify header)) = true
    /\ string_forall base64_char (btoa (stringify (JObj props))) = true
    /\ string_forall base64_char signature = true
    /\ obj_get "iat" props = Some (JNum (clock / 1000))
    /\ obj_get "exp" props = Some (JNum (clock / 1000 + seconds expiresIn))
    /\ (forall k, k <> "iat" -> k <> "exp" ->
          obj_get k props = obj_get k (literal payload)).
Proof.
  eexists; exists (btoa EmptyString).
  split; [reflexivity|].
  split; [apply split_on_three|].
  split; [reflexivity|].
  split; [apply btoa_base64_chars|].
  split; [apply btoa_base64_chars|].
  split; [apply btoa_base64_chars|].
  split; [|split].
  - rewrite obj_get_spread_set_ne by discriminate.
    apply obj_get_spread_set_eq.
  - destruct expiresIn; apply obj_get_spread_set_eq.
  - intros k Hiat Hexp.
    now rewrite !obj_get_spread_set_ne.
Qed.

(** The payload segment of an issued token: the claims with [iat] and
    [exp]. *)
Lemma generateJWT_payload (P : Platform) clock payload expiresIn :
  exists props signature,
    split_on "."%char (generateJWT clock payload expiresIn)
    = btoa (stringify header) :: btoa (stringify (JObj props)) :: signature :: nil
    /\ obj_get "iat" props = Some (JNum (clock / 1000))
    /\ obj_get "exp" props = Some (JNum (clock / 1000 + seconds expiresIn))
    /\ (forall k, k <> "iat" -> k <> "exp" ->
          obj_get k props = obj_get k (literal payload)).
Proof.
  eexists; exists (btoa EmptyString).
  split; [apply split_on_three|].
  split; [|split].
  - rewrite obj_get_spread_set_ne by discriminate.
    apply obj_get_spread_set_eq.
  - destruct expiresIn; apply obj_get_spread_set_eq.
  - intros k Hiat Hexp.
    now rewrite !obj_get_spread_set_ne.
Qed.

(** An accepted payload is not [null]. *)
Lemma verifyJWT_valid_readable (P : Platform) clock token payload :
  verifyJWT clock token = Valid payload ->
  exists exp, get_prop payload "exp" = Some exp.
Proof.
  unfold verifyJWT. destruct token; try discriminate.
  destruct (atob _); [|discriminate].
  destruct (parse _) as [decoded|]; [|discriminate].
  destruct (get_prop decoded "exp") as [exp|] eqn:Hexp; [|discriminate].
  destruct (js_le _ _); [discriminate|].
  destruct (atob _); discriminate.
Qed.

(** C3 fails as stated: the token of the scenario is not written in the
    URL-safe alphabet, its payload segment ends in [==]. *)
Lemma issued_token_not_base64url :
  base64url_token (@generateJWT stand_in 1700000000000 scenario (Seconds 3600)) = false.
Proof. vm_compute. reflexivity. Qed.

End TokenClaims.

(** ** The handlers *)

Module WorkerFacts.

Import Base64 Json Js Jwt Worker.

(** Unfolds the plumbing of a handler applied to a store. *)
Ltac tidy := cbn beta iota zeta delta [negb orb andb] in *.

Ltac run :=
  unfold try_catch, template, prop, lift, bind, kv_get, kv_put, ret, throw in *;
  tidy.

(** Case analysis on the next value a handler inspects. *)
Ltac next H :=
  match type of H with
  | context [match ?x with _ => _ end] =>
      lazymatch x with
      | context [match _ with _ => _ end] => fail
      | _ => destruct x eqn:?
      end
  end.

Ltac walk H := repeat (first [discriminate H | next H; tidy]).

(** Splits the hypotheses that state a lookup into the equations the
    handler meets one after the other. *)
Ltac expose :=
  unfold chain_broken, named_device, child_of, family_of, referred, is_guardian,
    is_linked, is_own, provided in *;
  repeat match goal with
         | H : match ?x with _ => _ end = _ |- _ =>
             destruct x eqn:?; try discriminate H
         end;
  repeat match goal with
         | H : Found _ = Found _ |- _ => injection H as H; subst
         | H : Some _ = Some _ |- _ => injection H as H
         end.

(** A record that has been read once is not [null]: every other property
    can be read as well. *)
Lemma get_prop_defined v k x k' :
  get_prop v k = Some x -> exists y, get_prop v k' = Some y.
Proof. destruct v; simpl; intros; try discriminate; eauto. Qed.

Ltac settle :=
  repeat first
    [ match goal with
      | H : ?x = _ |- context [?x] => rewrite H; tidy
      end
    | match goal with
      | H : get_prop ?v _ = Some _ |- context [get_prop ?v ?k'] =>
          let y := fresh "y" in
          let Hy := fresh "Hy" in
          destruct (get_prop_defined v _ _ k' H) as [y Hy];
          rewrite Hy; tidy
      end ].

(** C5: a command is created only for a guardian of the family of the
    device's child. A caller who is not listed is refused, whoever the
    device's [userId] names, the caller included; and a request that
    succeeds comes from a listed guardian. *)
Theorem command_creation_requires_guardian (body auth : json) clock uuid (s : store) :
  (forall device child family,
      provided body "deviceId" = true -> provided body "type" = true ->
      named_device s body = Found device ->
      child_of s device = Found child ->
      family_of s child = Found family ->
      is_guardian family auth = Some false ->
      handleCommandCreation body auth clock uuid s = (unauthorized, s))
  /\ (forall b s',
        handleCommandCreation body auth clock uuid s = (Json 200 b, s') ->
        exists device child family,
          named_device s body = Found device
          /\ child_of s device = Found child
          /\ family_of s child = Found family
          /\ is_guardian family auth = Some true).
Proof.
  split.
  - intros device child family Hid Htype Hdevice Hchild Hfamily Hlisted.
    expose.
    unfold handleCommandCreation. run. settle.
    reflexivity.
  - intros b s' Hrun.
    unfold handleCommandCreation in Hrun. run.
    walk Hrun.
    match goal with H : negb ?b = false |- _ => apply negb_false_iff in H; subst b end.
    match goal with
    | Hd : s !! ("device:" +:+ _) = Some ?d,
      Hc : s !! ("child:" +:+ _) = Some ?c,
      Hf : s !! ("family:" +:+ _) = Some ?f |- _ => exists d, c, f
    end.
    unfold named_device, child_of, family_of, referred, is_guardian.
    settle. auto.
Qed.



(** Runs a handler forward under the lookups the hypotheses state. *)
Ltac forward handler :=
  expose; unfold handler; run; settle; try reflexivity.

(** C4, amended. When the child or the family of a device is missing, a
    caller who is not the device's own user is refused with 403
    "Unauthorized" by every handler of a device, and the store is left as
    it was; command creation refuses every caller. When the family of a
    child is missing, the handlers of a child answer 404 "Family not
    found": access is not granted, but the answer is a not-found error
    and not a refusal. *)
Theorem missing_record_never_grants (auth : json) (s : store) :
  (forall deviceId device,
      s !! ("device:" +:+ deviceId) = Some device ->
      is_own device auth = Some false ->
      chain_broken s device = true ->
      (forall includeHistory,
          handleLocationRetrieval includeHistory deviceId auth s = (unauthorized, s))
      /\ (forall includeLocation,
            handleDeviceRetrieval includeLocation deviceId auth s = (unauthorized, s))
      /\ (forall statusFilter,
            handleCommandRetrieval statusFilter deviceId auth s = (unauthorized, s))
      /\ (forall body clock,
            handleDeviceUpdate body deviceId auth clock s = (unauthorized, s))
      /\ (forall body commandId command clock,
            s !! ("command:" +:+ deviceId +:+ ":" +:+ commandId) = Some command ->
            handleCommandUpdate body deviceId commandId auth clock s
            = (unauthorized, s)))
  /\ (forall body device clock,
        provided body "deviceId" = true -> provided body "location" = true ->
        named_device s body = Found device ->
        is_own device auth = Some false ->
        chain_broken s device = true ->
        handleLocationUpdate body auth clock s = (unauthorized, s))
  /\ (forall body device clock uuid,
        provided body "deviceId" = true -> provided body "type" = true ->
        named_device s body = Found device ->
        chain_broken s device = true ->
        handleCommandCreation body auth clock uuid s = (unauthorized, s))
  /\ (forall childId child,
        s !! ("child:" +:+ childId) = Some child ->
        family_of s child = Missing ->
        (forall includeDevices,
            handleChildRetrieval includeDevices childId auth s = (family_not_found, s))
        /\ (forall body clock,
              handleChildUpdate body childId auth clock s = (family_not_found, s)))
  /\ (forall body child clock uuid,
        provided body "name" = true -> provided body "type" = true ->
        provided body "childId" = true ->
        referred s "child:" body "childId" = Found child ->
        family_of s child = Missing ->
        handleDeviceRegistration body auth clock uuid s = (family_not_found, s)).
Proof.
  split; [|split; [|split; [|split]]].
  - intros deviceId device Hdevice Hown Hbroken.
    split; [|split; [|split; [|split]]].
    + intros includeHistory. forward handleLocationRetrieval.
    + intros includeLocation. forward handleDeviceRetrieval.
    + intros statusFilter. forward handleCommandRetrieval.
    + intros body clock. forward handleDeviceUpdate.
    + intros body commandId command clock Hcommand. forward handleCommandUpdate.
  - intros body device clock Hid Hlocation Hdevice Hown Hbroken.
    forward handleLocationUpdate.
  - intros body device clock uuid Hid Htype Hdevice Hbroken.
    forward handleCommandCreation.
  - intros childId child Hchild Hfamily. split.
    + intros includeDevices. forward handleChildRetrieval.
    + intros body clock. forward handleChildUpdate.
  - intros body child clock uuid Hname Htype Hid Hchild Hfamily.
    forward handleDeviceRegistration.
Qed.

(** C4 fails as stated for a child: with the family record missing the
    answer is 404 "Family not found", which is not the refusal. *)
Lemma missing_family_of_child_is_not_found :
  family_of orphaned kim = Missing
  /\ handleChildRetrieval false "c1" (auth_of "mum" "guardian") orphaned
     = (family_not_found, orphaned)
  /\ family_not_found <> unauthorized.
Proof.
  split; [reflexivity|]. split; [reflexivity|discriminate].
Qed.

Lemma missing_record_witness :
  handleLocationRetrieval false "d1" (auth_of "mum" "guardian") orphaned
  = (unauthorized, orphaned).
Proof.
  destruct (missing_record_never_grants (auth_of "mum" "guardian") orphaned)
    as [Hdevice _].
  destruct (Hdevice "d1" phone) as [Hretrieval _]; [reflexivity..|].
  apply Hretrieval.
Defined.

(** The device's own user asks for a command on its device. *)
Lemma command_creation_witness :
  is_own phone (auth_of "kid" "child") = Some true
  /\ handleCommandCreation
       (JObj (("deviceId", JStr "d1") :: ("type", JStr "lock") :: nil))
       (auth_of "kid" "child") 1700000000000 "c-1" household
     = (unauthorized, household).
Proof.
  split; [reflexivity|].
  apply (proj1 (command_creation_requires_guardian _ _ _ _ _) phone kim home);
    reflexivity.
Defined.

(** *** Location history *)

Lemma keep_first_take n (l : list json) : keep_first n l = take n l.
Proof.
  unfold keep_first.
  destruct (Nat.ltb_spec n (length l)); [reflexivity|].
  now rewrite take_ge.
Qed.

Lemma unshift_head c x l : unshift c x = Some l -> exists old, l = x :: old.
Proof. destruct c; simpl; intros; simplify_eq; eauto. Qed.

(** C9: after a location update that succeeds, the history kept for the
    device has at most 100 entries and starts with the entry of this
    update, which is also the current location. *)
Theorem location_history_bounded (body auth : json) clock (s s' : store) b :
  handleLocationUpdate body auth clock s = (Json 200 b, s') ->
  exists deviceId location timestamp batteryLevel text history,
    get_prop body "deviceId" = Some deviceId
    /\ get_prop body "location" = Some location
    /\ get_prop body "timestamp" = Some timestamp
    /\ get_prop body "batteryLevel" = Some batteryLevel
    /\ text_of deviceId = Some text
    /\ let entry :=
         JObj (literal (("deviceId", deviceId) :: ("location", location)
                        :: ("timestamp", Some (or_else timestamp (JNum clock)))
                        :: ("batteryLevel", Some (or_else batteryLevel (JNum 100)))
                        :: nil)) in
       s' !! ("currentLocation:" +:+ text) = Some entry
       /\ s' !! ("locationHistory:" +:+ text) = Some (JArr history)
       /\ (length history <= 100)%nat
       /\ head history = Some entry.
Proof.
  intros Hrun.
  unfold handleLocationUpdate in Hrun. run. walk Hrun.
  all: injection Hrun as _ <-.
  all: match goal with
       | H : unshift _ _ = Some _ |- _ => apply unshift_head in H as [old ->]
       end.
  all: do 6 eexists; repeat (split; [eassumption|]); cbn zeta.
  all: rewrite keep_first_take, lookup_insert_eq.
  all: rewrite lookup_insert_ne, lookup_insert_eq by discriminate.
  all: repeat split; try eassumption; rewrite length_take; lia.
Qed.

Lemma location_history_witness :
  exists history,
    snd (handleLocationUpdate sample_update (auth_of "kid" "child") 1700000000000
           household) !! "locationHistory:d1" = Some (JArr history)
    /\ (length history <= 100)%nat.
Proof.
  assert (handleLocationUpdate sample_update (auth_of "kid" "child") 1700000000000
            household
          = (Json 200 (JObj (("success", JBool true) :: nil)),
             snd (handleLocationUpdate sample_update (auth_of "kid" "child")
                    1700000000000 household))) as Hrun
    by (vm_compute; reflexivity).
  destruct (location_history_bounded _ _ _ _ _ _ Hrun)
    as (deviceId & location & timestamp & batteryLevel & text & history
        & Hid & _ & _ & _ & Htext & _ & Hhistory & Hlength & _).
  injection Hid as <-. injection Htext as <-.
  exists history. split; assumption.
Defined.

(** *** Family update *)

Lemma obj_get_set_eq l k v : obj_get k (obj_set l k v) = Some v.
Proof.
  induction l as [|[k' v'] l IH]; simpl.
  - now rewrite String.eqb_refl.
  - destruct (String.eqb k' k) eqn:Hk; simpl; now rewrite Hk.
Qed.

Lemma obj_get_set_ne l k k' v :
  k <> k' -> obj_get k (obj_set l k' v) = obj_get k l.
Proof.
  intros Hne.
  assert (String.eqb k' k = false) as Hk by (apply String.eqb_neq; congruence).
  induction l as [|[k0 v0] l IH]; simpl.
  - now rewrite Hk.
  - destruct (String.eqb_spec k0 k') as [->|H0]; simpl.
    + now rewrite Hk.
    + now rewrite IH.
Qed.

Lemma strict_eq_sym a b : strict_eq a b = strict_eq b a.
Proof.
  destruct a as [[| | | | |]|], b as [[| | | | |]|]; simpl; try reflexivity.
  - now destruct b, b0.
  - apply Z.eqb_sym.
  - apply String.eqb_sym.
Qed.

Lemma strict_eq_some y x : strict_eq (Some y) x = true -> x = Some y.
Proof.
  destruct x as [[| | | | |]|], y; simpl; try discriminate; intros Heq.
  - reflexivity.
  - apply Bool.eqb_prop in Heq. congruence.
  - apply Z.eqb_eq in Heq. congruence.
  - apply String.eqb_eq in Heq. congruence.
Qed.

(** Only an object has guardians that can be tested. *)
Lemma guarded_is_object j o c b :
  get_prop j "guardians" = Some o -> includes o c = Some b ->
  exists props, j = JObj props.
Proof.
  destruct j; simpl; intros [= <-]; try discriminate. eauto.
Qed.

Lemma truthy_element o : truthy o = true -> Some (element o) = o.
Proof. destruct o; [reflexivity|discriminate]. Qed.

Lemma includes_holds guardians caller :
  includes guardians caller = Some true -> holds guardians caller.
Proof.
  destruct guardians as [[| | | g | l |]|]; simpl; try discriminate.
  - destruct (text_of caller) as [sub|]; [|discriminate].
    intros [= Hsub]. eauto.
  - intros [= Hin]. apply existsb_exists in Hin as (y & Hy & Heq).
    apply strict_eq_some in Heq. now subst.
Qed.

Lemma push_holds guardians caller extended :
  push guardians caller = Some extended -> holds (Some extended) caller.
Proof.
  destruct guardians as [[| | | | l |]|]; simpl; try discriminate.
  intros [= <-]. simpl. apply in_or_app. right. now left.
Qed.

(** C8: after a family update that succeeds, the acting user is held by
    the guardians of the stored family. When the request gives a
    replacement, the stored guardians are the replacement, with the acting
    user appended if the replacement left it out. *)
Theorem family_update_keeps_acting_guardian (body : json) familyId (auth : json)
    clock (s s' : store) b :
  handleFamilyUpdate body familyId auth clock s = (Json 200 b, s') ->
  exists family caller guardians,
    s' !! ("family:" +:+ familyId) = Some family
    /\ get_prop auth "userId" = Some caller
    /\ get_prop family "guardians" = Some guardians
    /\ holds guardians caller
    /\ (forall replacement,
          get_prop body "guardians" = Some replacement ->
          truthy replacement = true ->
          (guardians = replacement /\ includes replacement caller = Some true)
          \/ (push replacement caller = guardians
              /\ includes replacement caller = Some false)).
Proof.
  intros Hrun.
  unfold handleFamilyUpdate in Hrun. run. walk Hrun.
  all: injection Hrun as _ <-.
  all: match goal with
       | H : negb ?b = false |- _ => apply negb_false_iff in H; subst b
       end.
  all: repeat match goal with
       | H : negb ?b = true |- _ => apply negb_true_iff in H; subst b
       end.
  all: repeat match goal with
       | H : get_prop ?j "guardians" = Some ?o, H' : includes ?o _ = Some _ |- _ =>
           is_var j; destruct (guarded_is_object _ _ _ _ H H') as [? ->]
       end.
  all: repeat (cbn [get_prop set_prop] in *;
               rewrite ?obj_get_set_eq, ?obj_get_set_ne in * by discriminate;
               simplify_eq).
  all: eexists _, _, _.
  all: split; [apply lookup_insert_eq|].
  all: split; [reflexivity|].
  all: cbn [get_prop].
  all: split; [reflexivity|].
  all: repeat first [rewrite obj_get_set_eq | rewrite obj_get_set_ne by discriminate].
  all: repeat match goal with
       | H : truthy ?o = true |- _ => rewrite (truthy_element o H) in *
       end.
  all: split; [eauto using includes_holds, push_holds|].
  all: intros replacement [= <-] Htruthy; try congruence; auto.
Qed.



Lemma family_update_witness :
  exists family guardians,
    snd (handleFamilyUpdate sample_replacement "f1" (auth_of "mum" "guardian")
           1700000000000 household) !! "family:f1" = Some family
    /\ get_prop family "guardians" = Some guardians
    /\ holds guardians (Some (JStr "mum")).
Proof.
  assert (exists b,
             handleFamilyUpdate sample_replacement "f1" (auth_of "mum" "guardian")
               1700000000000 household
             = (Json 200 b,
                snd (handleFamilyUpdate sample_replacement "f1"
                       (auth_of "mum" "guardian") 1700000000000 household)))
    as [b Hrun] by (eexists; vm_compute; reflexivity).
  destruct (family_update_keeps_acting_guardian _ _ _ _ _ _ _ Hrun)
    as (family & caller & guardians & Hstored & Hcaller & Hguardians & Hholds & _).
  injection Hcaller as <-.
  exists family, guardians. auto.
Defined.

(** *** Registration and login *)

Lemma obj_get_remove k l : obj_get k (obj_remove k l) = None.
Proof.
  induction l as [|[k' v] l IH]; simpl; [reflexivity|].
  destruct (String.eqb k' k) eqn:Hk; simpl; [assumption|].
  now rewrite Hk.
Qed.

Section Accounts.

Context `{Platform}.

(** C10: the [user] of the response of a registration or of a login that
    succeeds has no [passwordHash], while the record kept in the store
    under the user's key has one. *)
Theorem response_hides_passwordHash (body : json) clock (s s' : store) b :
  (forall uuid,
      handleRegister body clock uuid s = (Json 200 b, s') ->
      exists email text user token stored hash,
        get_prop body "email" = Some email
        /\ text_of email = Some text
        /\ b = JObj (("user", JObj user) :: ("token", JStr token) :: nil)
        /\ obj_get "passwordHash" user = None
        /\ s' !! ("user:" +:+ text) = Some stored
        /\ get_prop stored "passwordHash" = Some (Some (JStr hash)))
  /\ (handleLogin body clock s = (Json 200 b, s') ->
      exists email text user token stored hash,
        get_prop body "email" = Some email
        /\ text_of email = Some text
        /\ b = JObj (("user", JObj user) :: ("token", JStr token) :: nil)
        /\ obj_get "passwordHash" user = None
        /\ s' !! ("user:" +:+ text) = Some stored
        /\ get_prop stored "passwordHash" = Some (Some (JStr hash))).
Proof.
  split.
  - intros uuid Hrun.
    unfold handleRegister in Hrun. run. walk Hrun.
    injection Hrun as <- <-.
    match goal with
    | Hbody : get_prop _ "email" = Some ?o, Hemail : text_of ?o = Some ?t
      |- context [sha256_hex ?p] =>
        exists o, t; eexists _, _, _, (sha256_hex p)
    end.
    split; [reflexivity|]. split; [assumption|]. split; [reflexivity|].
    split; [apply obj_get_remove|].
    split.
    + rewrite lookup_insert_ne by (cbn; discriminate).
      apply lookup_insert_eq.
    + repeat match goal with o : jsval |- _ => destruct o end; reflexivity.
  - intros Hrun.
    unfold handleLogin in Hrun. run. walk Hrun.
    injection Hrun as <- <-.
    match goal with
    | Hhash : negb (strict_eq _ _) = false |- _ =>
        apply negb_false_iff in Hhash;
        rewrite strict_eq_sym in Hhash; apply strict_eq_some in Hhash; subst
    end.
    match goal with
    | Hbody : get_prop _ "email" = Some ?o, Hemail : text_of ?o = Some ?t,
      Hstored : get_prop ?j "passwordHash" = Some (Some (JStr ?h)) |- _ =>
        exists o, t; eexists _, _, j, h
    end.
    split; [reflexivity|]. split; [assumption|]. split; [reflexivity|].
    split; [apply obj_get_remove|]. split; assumption.
Qed.

(** C6, amended. A token that counts as false for the language (absent,
    empty, [0], [false], [null]) is answered 400 "Token is required"
    before any verification. For every other token, a failed verification
    is answered 401 with the reason of [verifyJWT] and nothing is issued;
    an accepted one is answered with a new token over the [userId],
    [email] and [role] of the payload, issued now for seven days. The
    store is never changed. *)
Theorem refresh_follows_verification (body : json) clock (s : store) token :
  get_prop body "token" = Some token ->
  if truthy token then
    match verifyJWT clock (element token) with
    | Invalid reason => handleRefresh body clock s = (Json 401 (error reason), s)
    | Valid payload =>
        exists userId email role props signature,
          get_prop payload "userId" = Some userId
          /\ get_prop payload "email" = Some email
          /\ get_prop payload "role" = Some role
          /\ handleRefresh body clock s
             = (Json 200
                  (JObj (("token",
                          JStr (generateJWT clock (refreshed_claims userId email role)
                                  SevenDays)) :: nil)), s)
          /\ split_on "."%char
               (generateJWT clock (refreshed_claims userId email role) SevenDays)
             = btoa (stringify header) :: btoa (stringify (JObj props))
               :: signature :: nil
          /\ obj_get "userId" props = userId
          /\ obj_get "email" props = email
          /\ obj_get "role" props = role
          /\ obj_get "iat" props = Some (JNum (clock / 1000))
          /\ obj_get "exp" props = Some (JNum (clock / 1000 + 604800))
    end
  else handleRefresh body clock s = (Json 400 (error "Token is required"), s).
Proof.
  intros Htoken.
  unfold handleRefresh. run. rewrite Htoken. tidy.
  destruct token as [t|]; [|reflexivity].
  destruct (truthy (Some t)) eqn:Htruthy; tidy; [|reflexivity].
  cbn [element].
  destruct (verifyJWT clock t) as [payload|reason] eqn:Hverify; [|reflexivity].
  destruct (TokenClaims.verifyJWT_valid_readable _ _ _ _ Hverify) as [exp Hexp].
  destruct (get_prop_defined _ _ _ "userId" Hexp) as [userId HuserId].
  destruct (get_prop_defined _ _ _ "email" Hexp) as [email Hemail].
  destruct (get_prop_defined _ _ _ "role" Hexp) as [role Hrole].
  rewrite HuserId, Hemail, Hrole. tidy.
  destruct (TokenClaims.generateJWT_payload _ clock (refreshed_claims userId email role)
              SevenDays) as (props & signature & Hsplit & Hiat & Hnew & Hkeep).
  exists userId, email, role, props, signature.
  repeat (split; [first [assumption | reflexivity]|]).
  rewrite !Hkeep by discriminate.
  destruct userId, email, role; repeat split; assumption.
Qed.

(** C6 fails as stated at the empty token: its verification reports a
    malformed token, its refresh a missing one. *)
Lemma empty_token_refresh_differs :
  @verifyJWT stand_in 1700000000000 (JStr EmptyString)
  = Invalid "Invalid token format"
  /\ @handleRefresh stand_in (JObj (("token", JStr EmptyString) :: nil))
       1700000000000 ∅
     = (Json 400 (error "Token is required"), ∅).
Proof. split; reflexivity. Qed.

End Accounts.

Lemma refresh_witness :
  @handleRefresh stand_in (JObj (("token", JStr "e30=.eyJleHAiOjB9") :: nil))
    1700000000000 ∅
  = (Json 401 (error "Token expired"), ∅).
Proof.
  exact (@refresh_follows_verification stand_in
           (JObj (("token", JStr "e30=.eyJleHAiOjB9") :: nil)) 1700000000000 ∅
           (Some (JStr "e30=.eyJleHAiOjB9")) eq_refl).
Defined.

Lemma registration_witness :
  exists user stored hash,
    obj_get "passwordHash" user = None
    /\ snd (@handleRegister stand_in sample_registration 1700000000000 "u-1" ∅)
         !! "user:a@b.com" = Some stored
    /\ get_prop stored "passwordHash" = Some (Some (JStr hash)).
Proof.
  assert (exists b,
             @handleRegister stand_in sample_registration 1700000000000 "u-1" ∅
             = (Json 200 b,
                snd (@handleRegister stand_in sample_registration 1700000000000
                       "u-1" ∅)))
    as [b Hrun] by (eexists; vm_compute; reflexivity).
  destruct (proj1 (@response_hides_passwordHash stand_in _ _ _ _ _) "u-1" Hrun)
    as (email & text & user & token & stored & hash
        & Hemail & Htext & _ & Hhidden & Hstored & Hhash).
  injection Hemail as <-. injection Htext as <-.
  exists user, stored, hash. auto.
Defined.

End WorkerFacts.

(** ** Further properties of the token helpers *)

Module TokenCoverage.

Import Base64 Json Jwt Base64Facts JwtFacts.

Section Token.

Context `{Platform}.

Lemma accepted_has_three_segments clock t payload :
  verifyJWT clock (JStr t) = Valid payload -> (3 <= segment_count t)%nat.
Proof.
  unfold verifyJWT, segment_count.
  destruct (split_on "."%char t) as [|h [|p [|sg more]]];
    cbn [lookup list_lookup to_text length]; try lia.
  - discriminate.
  - discriminate.
  - destruct (atob p); [|discriminate].
    destruct (parse _); [|discriminate].
    destruct (get_prop _ _); [|discriminate].
    destruct (js_le _ _); discriminate.
Qed.

(** [verifyJWT] accepts no token: whatever the token and the time, its
    answer is ['Token expired'] or ['Invalid token format']. The answers
    [valid: true] and ['Invalid signature'] lie behind the awaited
    [crypto.subtle.verify], which rejects the text [JWT_SECRET]. *)
Theorem verifyJWT_never_accepts clock token :
  verifyJWT clock token = Invalid "Token expired"
  \/ verifyJWT clock token = Invalid "Invalid token format".
Proof.
  unfold verifyJWT. destruct token; auto.
  destruct (atob _); [|auto].
  destruct (parse _); [|auto].
  destruct (get_prop _ _); [|auto].
  destruct (js_le _ _); [auto|].
  destruct (atob _); auto.
Qed.

(** Segments after the third do not change the verdict. *)
Theorem trailing_segments_do_not_matter clock t extra :
  (3 <= segment_count t)%nat ->
  verifyJWT clock (JStr (t +:+ "." +:+ extra)) = verifyJWT clock (JStr t).
Proof. apply TokenClaims.extra_segments_ignored. Qed.

(** A token of fewer than three segments is never accepted. *)
Theorem short_token_is_rejected clock t :
  (segment_count t < 3)%nat ->
  exists reason, verifyJWT clock (JStr t) = Invalid reason.
Proof.
  intros Hcount.
  destruct (verifyJWT clock (JStr t)) as [payload|reason] eqn:Hverify; [|eauto].
  apply accepted_has_three_segments in Hverify. lia.
Qed.

(** A token whose payload has no [exp] is never reported as expired:
    the test [payload.exp <= now] is false for [undefined], and at every
    time the answer is ['Invalid token format']. *)
Theorem token_without_exp_never_expires clock t h p more text payload :
  split_on "."%char t = h :: p :: more ->
  atob p = Some text ->
  parse text = Some payload ->
  get_prop payload "exp" = Some undefined ->
  verifyJWT clock (JStr t) = Invalid "Invalid token format".
Proof.
  intros Hsplit Hp Htext Hexp.
  now apply verifyJWT_unexpired with h p more text payload undefined.
Qed.

(** A token whose payload has not reached its [exp] is reported as
    malformed, whatever its third segment holds, the right MAC
    included. *)
Theorem unexpired_token_is_reported_malformed clock t h p more text payload exp :
  split_on "."%char t = h :: p :: more ->
  atob p = Some text ->
  parse text = Some payload ->
  get_prop payload "exp" = Some (Some (JNum exp)) ->
  (clock / 1000 < exp)%Z ->
  verifyJWT clock (JStr t) = Invalid "Invalid token format".
Proof.
  intros Hsplit Hp Htext Hexp Hlt.
  apply verifyJWT_unexpired with h p more text payload (Some (JNum exp));
    try assumption.
  cbn [js_le]. now apply Z.leb_gt.
Qed.

End Token.

End TokenCoverage.

Module TokenWitnesses.

Import Base64 Json Jwt Base64Facts JwtFacts TokenCoverage.

Lemma trailing_segments_witness :
  @verifyJWT stand_in 1700000000000 (JStr ("a.b.c" +:+ "." +:+ "d"))
  = @verifyJWT stand_in 1700000000000 (JStr "a.b.c").
Proof.
  apply (@trailing_segments_do_not_matter stand_in).
  vm_compute. lia.
Defined.

Lemma short_token_witness :
  exists reason, @verifyJWT stand_in 1700000000000 (JStr "e30=.e30=") = Invalid reason.
Proof.
  apply (@short_token_is_rejected stand_in).
  vm_compute. lia.
Defined.

Lemma token_without_exp_witness :
  @verifyJWT stand_in 1700000000000
    (JStr (@signed_token stand_in (JObj (("userId", JStr "u1") :: nil))))
  = Invalid "Invalid token format".
Proof.
  eapply (@token_without_exp_never_expires stand_in 1700000000000).
  - apply TokenClaims.signed_token_segments.
  - apply atob_btoa.
  - vm_compute. reflexivity.
  - reflexivity.
Defined.

(** The token carries the right MAC of its first two segments. *)
Lemma unexpired_token_witness :
  @verifyJWT stand_in 1700000000000 (JStr (@signed_token stand_in far_payload))
  = Invalid "Invalid token format".
Proof.
  eapply (@unexpired_token_is_reported_malformed stand_in 1700000000000).
  - apply TokenClaims.signed_token_segments.
  - apply atob_btoa.
  - vm_compute. reflexivity.
  - reflexivity.
  - vm_compute. reflexivity.
Defined.

End TokenWitnesses.

(** ** Further properties of the handlers *)

Module WorkerCoverage.

Import Base64 Json Js Jwt Worker WorkerFacts.

(** Case analysis on every value the handler of the goal inspects. *)
Ltac cases :=
  repeat match goal with
         | |- context [match ?x with _ => _ end] =>
             lazymatch x with
             | context [match _ with _ => _ end] => fail
             | _ => destruct x eqn:?; tidy
             end
         end.

Lemma collect_unchanged prefix ids (s : store) :
  snd (collect prefix ids s) = s.
Proof.
  induction ids as [|id ids IH]; [reflexivity|].
  cbn [collect]. run.
  destruct (text_of (Some id)); tidy; [|reflexivity].
  rewrite (surjective_pairing (collect prefix ids s)), IH.
  generalize (fst (collect prefix ids s)); intros rest.
  cases; reflexivity.
Qed.

Lemma commands_of_unchanged statusFilter deviceId ids (s : store) :
  snd (commands_of statusFilter deviceId ids s) = s.
Proof.
  induction ids as [|id ids IH]; [reflexivity|].
  cbn [commands_of]. run.
  destruct (text_of (Some id)); tidy; [|reflexivity].
  destruct (s !! _) as [command|]; tidy.
  - destruct statusFilter as [f|]; tidy.
    + destruct (String.eqb f EmptyString); tidy.
      * rewrite (surjective_pairing (commands_of (Some f) deviceId ids s)), IH.
        generalize (fst (commands_of (Some f) deviceId ids s)); intros rest.
        cases; reflexivity.
      * destruct (get_prop command "status"); tidy; [|reflexivity].
        rewrite (surjective_pairing (commands_of (Some f) deviceId ids s)), IH.
        generalize (fst (commands_of (Some f) deviceId ids s)); intros rest.
        cases; reflexivity.
    + rewrite (surjective_pairing (commands_of None deviceId ids s)), IH.
      generalize (fst (commands_of None deviceId ids s)); intros rest.
      cases; reflexivity.
  - rewrite (surjective_pairing (commands_of statusFilter deviceId ids s)), IH.
    generalize (fst (commands_of statusFilter deviceId ids s)); intros rest.
    cases; reflexivity.
Qed.

Ltac loops :=
  repeat match goal with
         | H : collect ?p ?l ?s = (_, ?s') |- _ =>
             let E := fresh in
             pose proof (collect_unchanged p l s) as E;
             rewrite H in E; simpl in E; subst s'; clear H
         | H : commands_of ?f ?d ?l ?s = (_, ?s') |- _ =>
             let E := fresh in
             pose proof (commands_of_unchanged f d l s) as E;
             rewrite H in E; simpl in E; subst s'; clear H
         end.

(** The handlers that only read: whatever they answer, the store is as
    it was. *)
Theorem retrievals_leave_store_unchanged (auth : json) (s : store) :
  (forall includeHistory deviceId,
      snd (handleLocationRetrieval includeHistory deviceId auth s) = s)
  /\ (forall includeLocation deviceId,
        snd (handleDeviceRetrieval includeLocation deviceId auth s) = s)
  /\ (forall statusFilter deviceId,
        snd (handleCommandRetrieval statusFilter deviceId auth s) = s)
  /\ (forall includeDevices childId,
        snd (handleChildRetrieval includeDevices childId auth s) = s)
  /\ (forall includeChildren familyId,
        snd (handleFamilyRetrieval includeChildren familyId auth s) = s).
Proof.
  split; [|split; [|split; [|split]]].
  - intros. unfold handleLocationRetrieval. run. cases; reflexivity.
  - intros. unfold handleDeviceRetrieval. run. cases; reflexivity.
  - intros. unfold handleCommandRetrieval. run. cases; loops; reflexivity.
  - intros. unfold handleChildRetrieval. run. cases; loops; reflexivity.
  - intros. unfold handleFamilyRetrieval. run. cases; loops; reflexivity.
Qed.

(** Settles a goal about a run that did not end in status 200. *)
Ltac refused H :=
  run; walk H; simplify_eq; first [reflexivity | congruence].

(** A request that is answered with a status other than 200 has written
    nothing: every handler checks before it writes. *)
Theorem refusals_leave_store_unchanged (auth : json) (s s' : store) status b :
  status <> 200%Z ->
  (forall body clock,
      handleLocationUpdate body auth clock s = (Json status b, s') -> s' = s)
  /\ (forall body clock uuid,
        handleCommandCreation body auth clock uuid s = (Json status b, s') -> s' = s)
  /\ (forall body deviceId commandId clock,
        handleCommandUpdate body deviceId commandId auth clock s = (Json status b, s') ->
        s' = s)
  /\ (forall body clock uuid,
        handleFamilyCreation body auth clock uuid s = (Json status b, s') -> s' = s)
  /\ (forall body familyId clock,
        handleFamilyUpdate body familyId auth clock s = (Json status b, s') -> s' = s)
  /\ (forall body clock uuid,
        handleChildCreation body auth clock uuid s = (Json status b, s') -> s' = s)
  /\ (forall body childId clock,
        handleChildUpdate body childId auth clock s = (Json status b, s') -> s' = s)
  /\ (forall body clock uuid,
        handleDeviceRegistration body auth clock uuid s = (Json status b, s') ->
        s' = s)
  /\ (forall body deviceId clock,
        handleDeviceUpdate body deviceId auth clock s = (Json status b, s') -> s' = s).
Proof.
  intros Hstatus.
  repeat match goal with |- _ /\ _ => split end.
  - intros body clock Hrun. unfold handleLocationUpdate in Hrun. refused Hrun.
  - intros body clock uuid Hrun. unfold handleCommandCreation in Hrun. refused Hrun.
  - intros body deviceId commandId clock Hrun.
    unfold handleCommandUpdate in Hrun. refused Hrun.
  - intros body clock uuid Hrun. unfold handleFamilyCreation in Hrun. refused Hrun.
  - intros body familyId clock Hrun. unfold handleFamilyUpdate in Hrun. refused Hrun.
  - intros body clock uuid Hrun. unfold handleChildCreation in Hrun. refused Hrun.
  - intros body childId clock Hrun. unfold handleChildUpdate in Hrun. refused Hrun.
  - intros body clock uuid Hrun. unfold handleDeviceRegistration in Hrun. refused Hrun.
  - intros body deviceId clock Hrun. unfold handleDeviceUpdate in Hrun. refused Hrun.
Qed.

Ltac grounds :=
  repeat match goal with
         | H : negb _ = true |- _ => apply negb_true_iff in H
         | H : negb _ = false |- _ => apply negb_false_iff in H
         end;
  subst;
  unfold may_access_device, named_device, is_linked, is_own, child_of, family_of,
    referred, is_guardian;
  settle.

Ltac granted :=
  grounds;
  first
    [ done
    | eexists; split; [reflexivity|]; settle;
      first
        [ left; reflexivity
        | right; eexists _, _;
          split; [settle; reflexivity|];
          split; [settle; reflexivity|];
          settle; reflexivity ] ].

(** The handlers of a device answer 200 only to the device's own user or
    to a guardian of the family of the device's child. *)
Theorem device_access_requires_owner_or_guardian (auth : json) (s s' : store) b :
  (forall includeHistory deviceId,
      handleLocationRetrieval includeHistory deviceId auth s = (Json 200 b, s') ->
      exists device,
        s !! ("device:" +:+ deviceId) = Some device /\ may_access_device s device auth)
  /\ (forall includeLocation deviceId,
        handleDeviceRetrieval includeLocation deviceId auth s = (Json 200 b, s') ->
        exists device,
          s !! ("device:" +:+ deviceId) = Some device
          /\ may_access_device s device auth)
  /\ (forall statusFilter deviceId,
        handleCommandRetrieval statusFilter deviceId auth s = (Json 200 b, s') ->
        exists device,
          s !! ("device:" +:+ deviceId) = Some device
          /\ may_access_device s device auth)
  /\ (forall body deviceId clock,
        handleDeviceUpdate body deviceId auth clock s = (Json 200 b, s') ->
        exists device,
          s !! ("device:" +:+ deviceId) = Some device
          /\ may_access_device s device auth)
  /\ (forall body deviceId commandId clock,
        handleCommandUpdate body deviceId commandId auth clock s = (Json 200 b, s') ->
        exists device,
          s !! ("device:" +:+ deviceId) = Some device
          /\ may_access_device s device auth)
  /\ (forall body clock,
        handleLocationUpdate body auth clock s = (Json 200 b, s') ->
        exists device,
          named_device s body = Found device /\ may_access_device s device auth).
Proof.
  repeat match goal with |- _ /\ _ => split end.
  - intros includeHistory deviceId Hrun.
    unfold handleLocationRetrieval in Hrun. run. walk Hrun; granted.
  - intros includeLocation deviceId Hrun.
    unfold handleDeviceRetrieval in Hrun. run. walk Hrun; granted.
  - intros statusFilter deviceId Hrun.
    unfold handleCommandRetrieval in Hrun. run. walk Hrun; granted.
  - intros body deviceId clock Hrun.
    unfold handleDeviceUpdate in Hrun. run. walk Hrun; granted.
  - intros body deviceId commandId clock Hrun.
    unfold handleCommandUpdate in Hrun. run. walk Hrun; granted.
  - intros body clock Hrun.
    unfold handleLocationUpdate in Hrun. run. walk Hrun; granted.
Qed.

(** A device is shown to its own user and to a guardian of the family
    of its child, and the store is left as it was. *)
Theorem device_is_shown_to_owner_and_guardian (auth : json) (s : store)
    deviceId device :
  s !! ("device:" +:+ deviceId) = Some device ->
  may_access_device s device auth ->
  handleDeviceRetrieval false deviceId auth s = (Json 200 device, s).
Proof.
  intros Hdevice [Hown|(child & family & Hchild & Hfamily & Hguardian)].
  - forward handleDeviceRetrieval.
  - expose. unfold handleDeviceRetrieval. run. settle.
    destruct (strict_eq _ _); tidy; settle; reflexivity.
Qed.

(** The operations on a family and the changes of its children are for
    the guardians of the family only. *)
Theorem family_operations_require_guardian (auth : json) (s s' : store) b :
  (forall includeChildren familyId,
      handleFamilyRetrieval includeChildren familyId auth s = (Json 200 b, s') ->
      exists family,
        s !! ("family:" +:+ familyId) = Some family
        /\ is_guardian family auth = Some true)
  /\ (forall body familyId clock,
        handleFamilyUpdate body familyId auth clock s = (Json 200 b, s') ->
        exists family,
          s !! ("family:" +:+ familyId) = Some family
          /\ is_guardian family auth = Some true)
  /\ (forall body clock uuid,
        handleChildCreation body auth clock uuid s = (Json 200 b, s') ->
        exists family,
          referred s "family:" body "familyId" = Found family
          /\ is_guardian family auth = Some true)
  /\ (forall body childId clock,
        handleChildUpdate body childId auth clock s = (Json 200 b, s') ->
        exists child family,
          s !! ("child:" +:+ childId) = Some child
          /\ family_of s child = Found family
          /\ is_guardian family auth = Some true).
Proof.
  repeat match goal with |- _ /\ _ => split end.
  - intros includeChildren familyId Hrun.
    unfold handleFamilyRetrieval in Hrun. run. walk Hrun; grounds.
    all: eexists; split; [reflexivity|]; settle; reflexivity.
  - intros body familyId clock Hrun.
    unfold handleFamilyUpdate in Hrun. run. walk Hrun; grounds.
    all: eexists; split; [reflexivity|]; settle; reflexivity.
  - intros body clock uuid Hrun.
    unfold handleChildCreation in Hrun. run. walk Hrun; grounds.
    all: eexists; split; [reflexivity|]; settle; reflexivity.
  - intros body childId clock Hrun.
    unfold handleChildUpdate in Hrun. run. walk Hrun; grounds.
    all: eexists _, _; split; [reflexivity|]; settle.
    all: split; [reflexivity|]; settle; reflexivity.
Qed.

(** A child is shown, and a device is registered for it, only to a
    guardian of its family or to the user the child is linked to. *)
Theorem child_access_requires_guardian_or_link (auth : json) (s s' : store) b :
  (forall includeDevices childId,
      handleChildRetrieval includeDevices childId auth s = (Json 200 b, s') ->
      exists child family,
        s !! ("child:" +:+ childId) = Some child
        /\ family_of s child = Found family
        /\ (is_guardian family auth = Some true \/ is_linked child auth = Some true))
  /\ (forall body clock uuid,
        handleDeviceRegistration body auth clock uuid s = (Json 200 b, s') ->
        exists child family,
          referred s "child:" body "childId" = Found child
          /\ family_of s child = Found family
          /\ (is_guardian family auth = Some true
              \/ is_linked child auth = Some true)).
Proof.
  split.
  - intros includeDevices childId Hrun.
    unfold handleChildRetrieval in Hrun. run. walk Hrun; loops; grounds.
    all: eexists _, _; split; [reflexivity|]; settle.
    all: split; [reflexivity|]; settle.
    all: destruct b0; [left; reflexivity|right].
    all: destruct (strict_eq _ _); [reflexivity|discriminate].
  - intros body clock uuid Hrun.
    unfold handleDeviceRegistration in Hrun. run. walk Hrun; grounds.
    all: eexists _, _; split; [reflexivity|]; settle.
    all: split; [reflexivity|]; settle.
    all: destruct b0; [left; reflexivity|right].
    all: destruct (strict_eq _ _); [reflexivity|discriminate].
Qed.

Local Open Scope Z_scope.

(** The values a handler has accepted are defined. *)
Ltac accepted :=
  repeat match goal with
         | H : _ || _ = false |- _ => apply orb_false_iff in H as [? ?]
         | H : negb _ = false |- _ => apply negb_false_iff in H
         end.

Ltac defined :=
  repeat match goal with
         | H : truthy ?o = true |- _ =>
             is_var o; destruct o; [|discriminate H]
         end.

(** *** Accounts *)

Section Sessions.

Context `{Platform}.

Lemma handleLogin_reads_only body clock (s : store) :
  snd (handleLogin body clock s) = s.
Proof. unfold handleLogin. run. cases; reflexivity. Qed.

Lemma handleVerify_reads_only body clock (s : store) :
  snd (handleVerify body clock s) = s.
Proof. unfold handleVerify. run. cases; reflexivity. Qed.

Lemma handleRefresh_reads_only body clock (s : store) :
  snd (handleRefresh body clock s) = s.
Proof. unfold handleRefresh. run. cases; reflexivity. Qed.

(** Logging in, verifying a token and refreshing one never write to the
    store, whatever they answer. *)
Theorem token_endpoints_leave_store_unchanged body clock (s : store) :
  snd (handleLogin body clock s) = s
  /\ snd (handleVerify body clock s) = s
  /\ snd (handleRefresh body clock s) = s.
Proof.
  split; [apply handleLogin_reads_only|].
  split; [apply handleVerify_reads_only|apply handleRefresh_reads_only].
Qed.

(** Neither [handleVerify] nor [handleRefresh] ever answers 200: no
    token passes [verifyJWT], so no payload is confirmed and no token is
    renewed. *)
Theorem token_endpoints_never_answer_200 body clock (s s' : store) b :
  handleVerify body clock s <> (Json 200 b, s')
  /\ handleRefresh body clock s <> (Json 200 b, s').
Proof.
  split; intros Hrun.
  - unfold handleVerify in Hrun. run. walk Hrun.
    all: eapply JwtFacts.verifyJWT_never_valid; eassumption.
  - unfold handleRefresh in Hrun. run. walk Hrun.
    all: eapply JwtFacts.verifyJWT_never_valid; eassumption.
Qed.

(** After a registration that succeeds, a login with the same email and
    password succeeds at any later time: it answers the same user, without
    its password hash, and a token over the registered identifier, email
    and role, and it leaves the store as it is. *)
Theorem registration_then_login body clock uuid (s s' : store) b login clock' :
  handleRegister body clock uuid s = (Json 200 b, s') ->
  get_prop login "email" = get_prop body "email" ->
  get_prop login "password" = get_prop body "password" ->
  exists email role user token,
    get_prop body "email" = Some email
    /\ get_prop body "role" = Some role
    /\ b = JObj (("user", user) :: ("token", JStr token) :: nil)
    /\ handleLogin login clock' s'
       = (Json 200
            (JObj (("user", user)
                   :: ("token",
                       JStr (generateJWT clock'
                               (("userId", Some (JStr uuid)) :: ("email", email)
                                :: ("role", role) :: nil) SevenDays)) :: nil)),
          s').
Proof.
  intros Hrun Hemail Hpassword.
  unfold handleRegister in Hrun. run. walk Hrun.
  injection Hrun as <- <-.
  eexists _, _, _, _.
  split; [reflexivity|]. split; [reflexivity|]. split; [reflexivity|].
  accepted.
  unfold handleLogin. run. rewrite Hemail, Hpassword. tidy. settle.
  rewrite lookup_insert_ne by (cbn; discriminate).
  rewrite lookup_insert_eq. tidy.
  defined. cbn. rewrite String.eqb_refl. cbn. reflexivity.
Qed.

(** After a registration that succeeds, the email is taken: a second
    registration with it is answered 409 and writes nothing. *)
Theorem registered_email_is_taken body clock uuid (s s' : store) b again clock' uuid' :
  handleRegister body clock uuid s = (Json 200 b, s') ->
  get_prop again "email" = get_prop body "email" ->
  provided again "password" = true ->
  provided again "name" = true ->
  provided again "role" = true ->
  handleRegister again clock' uuid' s'
  = (Json 409 (error "User already exists"), s').
Proof.
  intros Hrun Hemail Hpassword Hname Hrole.
  unfold handleRegister in Hrun. run. walk Hrun.
  injection Hrun as <- <-.
  expose. accepted.
  unfold handleRegister. run. rewrite Hemail. settle.
  rewrite lookup_insert_ne by (cbn; discriminate).
  rewrite lookup_insert_eq. reflexivity.
Qed.

Lemma strict_eq_text a x : strict_eq a (Some (JStr x)) = true -> a = Some (JStr x).
Proof. rewrite strict_eq_sym. apply strict_eq_some. Qed.

(** A login compares the hash of the given password with the stored one.
    An email that is not registered and a password whose hash is not the
    stored one get the same answer, 401 with the same message; and a login
    succeeds only against a stored hash that is the hash of the given
    password. *)
Theorem login_checks_password_hash body clock (s : store) email text password pw :
  get_prop body "email" = Some email -> truthy email = true ->
  text_of email = Some text ->
  get_prop body "password" = Some password -> truthy password = true ->
  text_of password = Some pw ->
  (s !! ("user:" +:+ text) = None ->
   handleLogin body clock s = (Json 401 (error "Invalid email or password"), s))
  /\ (forall user stored,
        s !! ("user:" +:+ text) = Some user ->
        get_prop user "passwordHash" = Some stored ->
        stored <> Some (JStr (sha256_hex pw)) ->
        handleLogin body clock s
        = (Json 401 (error "Invalid email or password"), s))
  /\ (forall b s',
        handleLogin body clock s = (Json 200 b, s') ->
        exists user,
          s !! ("user:" +:+ text) = Some user
          /\ get_prop user "passwordHash" = Some (Some (JStr (sha256_hex pw)))).
Proof.
  intros Hemail Htruthy Htext Hpassword Htruthy' Hpw.
  split; [|split].
  - intros Hmissing. unfold handleLogin. run. settle. reflexivity.
  - intros user stored Huser Hstored Hdiffers.
    unfold handleLogin. run. settle.
    destruct (strict_eq stored _) eqn:Heq; [|reflexivity].
    apply strict_eq_text in Heq. contradiction.
  - intros b s' Hrun.
    unfold handleLogin in Hrun. run.
    rewrite Hemail, Hpassword in Hrun. tidy.
    rewrite Htruthy, Htruthy', Htext in Hrun. tidy.
    walk Hrun. simplify_eq.
    match goal with
    | Hhash : negb (strict_eq _ _) = false |- _ =>
        apply negb_false_iff, strict_eq_text in Hhash; subst
    end.
    eexists. split; [reflexivity|assumption].
Qed.

End Sessions.

Lemma registration_then_login_witness :
  exists user token,
    @handleLogin stand_in sample_registration 1700000100000
      (snd (@handleRegister stand_in sample_registration 1700000000000 "u-1" ∅))
    = (Json 200 (JObj (("user", user) :: ("token", JStr token) :: nil)),
       snd (@handleRegister stand_in sample_registration 1700000000000 "u-1" ∅)).
Proof.
  assert (exists b,
             @handleRegister stand_in sample_registration 1700000000000 "u-1" ∅
             = (Json 200 b,
                snd (@handleRegister stand_in sample_registration 1700000000000
                       "u-1" ∅)))
    as [b Hrun] by (eexists; vm_compute; reflexivity).
  destruct (@registration_then_login stand_in _ _ _ _ _ _ sample_registration
              1700000100000 Hrun eq_refl eq_refl)
    as (email & role & user & token & _ & _ & _ & Hlogin).
  eexists _, _. exact Hlogin.
Defined.

Lemma registered_email_witness :
  @handleRegister stand_in sample_registration 1700000100000 "u-2"
    (snd (@handleRegister stand_in sample_registration 1700000000000 "u-1" ∅))
  = (Json 409 (error "User already exists"),
     snd (@handleRegister stand_in sample_registration 1700000000000 "u-1" ∅)).
Proof.
  assert (exists b,
             @handleRegister stand_in sample_registration 1700000000000 "u-1" ∅
             = (Json 200 b,
                snd (@handleRegister stand_in sample_registration 1700000000000
                       "u-1" ∅)))
    as [b Hrun] by (eexists; vm_compute; reflexivity).
  exact (@registered_email_is_taken stand_in _ _ _ _ _ _ sample_registration
           1700000100000 "u-2" Hrun eq_refl eq_refl eq_refl eq_refl).
Defined.

Lemma login_witness :
  @handleLogin stand_in sample_registration 1700000000000 ∅
  = (Json 401 (error "Invalid email or password"), ∅).
Proof.
  apply (proj1 (@login_checks_password_hash stand_in sample_registration
                  1700000000000 ∅ (Some (JStr "a@b.com")) "a@b.com"
                  (Some (JStr "secret")) "secret"
                  eq_refl eq_refl eq_refl eq_refl eq_refl eq_refl)).
  reflexivity.
Defined.

(** *** Witnesses of the access decisions *)

Lemma refusal_witness :
  snd (handleLocationUpdate sample_update (auth_of "stranger" "guardian")
         1700000000000 household) = household.
Proof.
  apply (proj1 (refusals_leave_store_unchanged (auth_of "stranger" "guardian")
                  household _ 403 (error "Unauthorized") ltac:(lia))
           sample_update 1700000000000).
  vm_compute. reflexivity.
Defined.

Lemma device_access_witness :
  exists device,
    household !! "device:d1" = Some device
    /\ may_access_device household device (auth_of "mum" "guardian").
Proof.
  apply (proj1 (proj2 (device_access_requires_owner_or_guardian
                         (auth_of "mum" "guardian") household household phone))
           false "d1").
  vm_compute. reflexivity.
Defined.

Lemma device_shown_witness :
  handleDeviceRetrieval false "d1" (auth_of "mum" "guardian") household
  = (Json 200 phone, household).
Proof.
  apply (device_is_shown_to_owner_and_guardian _ _ "d1" phone); [reflexivity|].
  right. exists kim, home.
  split; [reflexivity|]. split; reflexivity.
Defined.

Lemma family_operations_witness :
  exists family,
    household !! "family:f1" = Some family
    /\ is_guardian family (auth_of "mum" "guardian") = Some true.
Proof.
  apply (proj1 (family_operations_require_guardian (auth_of "mum" "guardian")
                  household household home) false "f1").
  vm_compute. reflexivity.
Defined.

Lemma child_access_witness :
  exists child family,
    household !! "child:c1" = Some child
    /\ family_of household child = Found family
    /\ (is_guardian family (auth_of "kid" "child") = Some true
        \/ is_linked child (auth_of "kid" "child") = Some true).
Proof.
  apply (proj1 (child_access_requires_guardian_or_link (auth_of "kid" "child")
                  household household kim) false "c1").
  vm_compute. reflexivity.
Defined.

(** *** What a creation leaves behind *)

(** The lookups of a store after the writes of a handler. *)
Ltac stored :=
  repeat first
    [ rewrite lookup_insert_eq
    | rewrite lookup_insert_ne by (cbn; discriminate) ].

Lemma push_array c x r :
  push c x = Some r -> exists l, c = Some (JArr l) /\ r = JArr (l ++ element x :: nil).
Proof.
  destruct c as [[| | | | l |]|]; simpl; intros; simplify_eq. eauto.
Qed.

Lemma set_prop_object v k x v' :
  set_prop v k x = Some v' ->
  forall l, v = JObj l -> v' = JObj (obj_set l k x).
Proof. intros Hset l ->. simpl in Hset. congruence. Qed.

Lemma get_prop_array v k l :
  get_prop v k = Some (Some (JArr l)) -> exists props, v = JObj props.
Proof. destruct v; simpl; intros; simplify_eq. eauto. Qed.

(** A family that has been created is kept under its identifier with the
    creator as its only guardian and no children, and the creator can
    retrieve it. *)
Theorem created_family_belongs_to_creator body auth clock uuid (s s' : store) b u :
  handleFamilyCreation body auth clock uuid s = (Json 200 b, s') ->
  get_prop auth "userId" = Some (Some (JStr u)) ->
  exists family,
    b = JObj (("success", JBool true) :: ("family", family) :: nil)
    /\ s' !! ("family:" +:+ uuid) = Some family
    /\ get_prop family "guardians" = Some (Some (JArr (JStr u :: nil)))
    /\ get_prop family "children" = Some (Some (JArr nil))
    /\ handleFamilyRetrieval false uuid auth s' = (Json 200 family, s').
Proof.
  intros Hrun Hcaller.
  unfold handleFamilyCreation in Hrun. run.
  rewrite Hcaller in Hrun. tidy. walk Hrun.
  all: injection Hrun as <- <-.
  all: accepted; defined.
  all: eexists; split; [reflexivity|].
  all: split; [cbn in *; simplify_eq; now stored|].
  all: split; [reflexivity|]. 
  all: split; [reflexivity|].
  all: unfold handleFamilyRetrieval; run.
  all: cbn in *; simplify_eq; stored; tidy.
  all: rewrite Hcaller; cbn; rewrite String.eqb_refl; reflexivity.
Qed.

(** A child that has been created is kept under its identifier, its
    identifier is appended to the children of the family, whose guardians
    stay as they were, and the guardian who created it can retrieve it. *)
Theorem created_child_joins_family body auth clock uuid (s s' : store) b :
  handleChildCreation body auth clock uuid s = (Json 200 b, s') ->
  exists child familyId text family family' listed,
    b = JObj (("success", JBool true) :: ("child", child) :: nil)
    /\ s' !! ("child:" +:+ uuid) = Some child
    /\ get_prop child "familyId" = Some familyId
    /\ text_of familyId = Some text
    /\ s !! ("family:" +:+ text) = Some family
    /\ s' !! ("family:" +:+ text) = Some family'
    /\ get_prop family "children" = Some (Some (JArr listed))
    /\ get_prop family' "children" = Some (Some (JArr (listed ++ JStr uuid :: nil)))
    /\ get_prop family' "guardians" = get_prop family "guardians"
    /\ handleChildRetrieval false uuid auth s' = (Json 200 child, s').
Proof.
  intros Hrun.
  unfold handleChildCreation in Hrun. run. walk Hrun.
  all: injection Hrun as <- <-.
  all: accepted; defined.
  all: match goal with
       | H : push _ _ = Some _ |- _ => apply push_array in H as (listed & -> & ->)
       end.
  all: match goal with
       | H : get_prop _ "children" = Some (Some (JArr _)) |- _ =>
           destruct (get_prop_array _ _ _ H) as [props ->]
       end.
  all: cbn [set_prop] in *; simplify_eq.
  all: eexists _, _, _, _, _, _.
  all: split; [reflexivity|].
  all: split; [now stored|].
  all: split; [reflexivity|].
  all: split; [eassumption|].
  all: split; [eassumption|].
  all: split; [now stored|].
  all: split; [eassumption|].
  all: split; [cbn [get_prop element]; now rewrite obj_get_set_eq|].
  all: split; [cbn [get_prop]; now rewrite obj_get_set_ne by discriminate|].
  all: unfold handleChildRetrieval; run; stored; tidy.
  all: cbn [get_prop literal obj_get String.eqb Ascii.eqb Bool.eqb]; tidy.
  all: settle; stored; tidy.
  all: cbn [get_prop] in *; rewrite obj_get_set_ne by discriminate.
  all: simplify_eq; settle; reflexivity.
Qed.

Lemma strict_eq_refl_of a b : strict_eq a b = true -> strict_eq b b = true.
Proof.
  destruct a as [[| | | | |]|], b as [[| | | | |]|]; simpl; try discriminate;
    intros; auto using Bool.eqb_reflx, Z.eqb_refl, String.eqb_refl.
Qed.

(** A device that has been registered is kept under its identifier with
    the registering user as its user, its identifier is appended to the
    devices of the child, whose family stays as it was, and the user who
    registered it can retrieve it. *)
Theorem registered_device_joins_child body auth clock uuid (s s' : store) b :
  handleDeviceRegistration body auth clock uuid s = (Json 200 b, s') ->
  exists device childId text child child' listed,
    b = JObj (("success", JBool true) :: ("device", device) :: nil)
    /\ s' !! ("device:" +:+ uuid) = Some device
    /\ get_prop device "userId" = get_prop auth "userId"
    /\ get_prop device "childId" = Some childId
    /\ text_of childId = Some text
    /\ s !! ("child:" +:+ text) = Some child
    /\ s' !! ("child:" +:+ text) = Some child'
    /\ get_prop child "devices" = Some (Some (JArr listed))
    /\ get_prop child' "devices" = Some (Some (JArr (listed ++ JStr uuid :: nil)))
    /\ get_prop child' "familyId" = get_prop child "familyId"
    /\ handleDeviceRetrieval false uuid auth s' = (Json 200 device, s').
Proof.
  intros Hrun.
  unfold handleDeviceRegistration in Hrun. run. walk Hrun.
  all: injection Hrun as <- <-.
  all: accepted; defined.
  all: match goal with
       | H : push _ _ = Some _ |- _ => apply push_array in H as (listed & -> & ->)
       end.
  all: match goal with
       | H : get_prop _ "devices" = Some (Some (JArr _)) |- _ =>
           destruct (get_prop_array _ _ _ H) as [props ->]
       end.
  all: cbn [set_prop] in *; simplify_eq.
  all: eexists _, _, _, _, _, _.
  all: split; [reflexivity|].
  all: split; [now stored|].
  all: split; [match goal with
               | |- get_prop _ _ = Some ?o => now destruct o
               end|].
  all: split; [reflexivity|].
  all: split; [eassumption|].
  all: split; [eassumption|].
  all: split; [now stored|].
  all: split; [eassumption|].
  all: split; [cbn [get_prop element]; now rewrite obj_get_set_eq|].
  all: split; [cbn [get_prop]; now rewrite obj_get_set_ne by discriminate|].
  all: unfold handleDeviceRetrieval; run; stored; tidy.
  all: match goal with
       | H : get_prop _ "userId" = Some ?o |- context [match ?o with _ => _ end] =>
           destruct o as [caller|]
       end.
  all: cbn [get_prop obj_get String.eqb Ascii.eqb Bool.eqb] in *; tidy.
  all: simplify_eq; settle; try reflexivity.
  all: destruct (strict_eq (Some caller) (Some caller)) eqn:Hself; tidy;
    [reflexivity|].
  all: settle; stored; tidy.
  all: cbn [get_prop]; rewrite obj_get_set_ne by discriminate.
  all: settle; stored; tidy; settle.
  all: match goal with
       | H : negb ?listed && negb (strict_eq ?linked _) = false |- _ =>
           destruct listed; [reflexivity|];
           destruct (strict_eq linked _) eqn:Hlinked; [|discriminate H];
           apply strict_eq_refl_of in Hlinked; congruence
       end.
Qed.

(** *** Commands *)

(** A command that has been created is kept as pending under the device
    and its own identifier, and the list of the device's commands starts
    with it and has at most 50 entries. *)
Theorem command_list_bounded body auth clock uuid (s s' : store) b :
  handleCommandCreation body auth clock uuid s = (Json 200 b, s') ->
  exists deviceId text command commands,
    get_prop body "deviceId" = Some deviceId
    /\ text_of deviceId = Some text
    /\ b = JObj (("success", JBool true) :: ("command", command) :: nil)
    /\ s' !! ("command:" +:+ text +:+ ":" +:+ uuid) = Some command
    /\ get_prop command "status" = Some (Some (JStr "pending"))
    /\ s' !! ("commands:" +:+ text) = Some (JArr commands)
    /\ (length commands <= 50)%nat
    /\ head commands = Some (JStr uuid).
Proof.
  intros Hrun.
  unfold handleCommandCreation in Hrun. run. walk Hrun.
  all: injection Hrun as <- <-.
  all: accepted; defined.
  all: match goal with
       | H : unshift _ _ = Some _ |- _ => apply unshift_head in H as [old ->]
       end.
  all: eexists _, _, _, _.
  all: split; [reflexivity|].
  all: split; [eassumption|].
  all: split; [reflexivity|].
  all: split; [now stored|].
  all: split; [reflexivity|].
  all: split; [now stored|].
  all: rewrite keep_first_take.
  all: split; [rewrite length_take; lia|reflexivity].
Qed.

(** *** Locations *)

(** The location a device has reported is the one a retrieval by the
    same caller answers next. *)
Theorem updated_location_is_current body auth clock (s s' : store) b :
  handleLocationUpdate body auth clock s = (Json 200 b, s') ->
  exists deviceId text entry,
    get_prop body "deviceId" = Some deviceId
    /\ text_of deviceId = Some text
    /\ s' !! ("currentLocation:" +:+ text) = Some entry
    /\ get_prop entry "location" = get_prop body "location"
    /\ handleLocationRetrieval false text auth s' = (Json 200 entry, s').
Proof.
  intros Hrun.
  unfold handleLocationUpdate in Hrun. run. walk Hrun.
  all: injection Hrun as <- <-.
  all: accepted; defined.
  all: eexists _, _, _.
  all: split; [reflexivity|].
  all: split; [eassumption|].
  all: split; [now stored|].
  all: split; [reflexivity|].
  all: unfold handleLocationRetrieval; run.
  all: repeat (progress (stored; settle; tidy)).
  all: reflexivity.
Qed.

(** *** Updates *)

Lemma get_prop_set_prop_ne v k x v' k' :
  set_prop v k x = Some v' -> k' <> k -> get_prop v' k' = get_prop v k'.
Proof.
  destruct v; simpl; intros; simplify_eq; try reflexivity.
  simpl. now rewrite obj_get_set_ne.
Qed.

(** Follows the assignments of an update back to the record it read. *)
Ltac unchanged :=
  repeat match goal with
         | H : set_prop _ _ _ = Some ?v' |- context [get_prop ?v' ?k] =>
             rewrite (get_prop_set_prop_ne _ _ _ _ k H) by assumption
         end;
  reflexivity.

(** An update that succeeds writes one record, the one it names, and
    changes in it only the properties it is meant to change: the user and
    the child of a device, the family of a child and the children of a
    family stay as they are. *)
Theorem updates_change_only_their_fields (auth : json) (s s' : store) b :
  (forall body deviceId clock,
      handleDeviceUpdate body deviceId auth clock s = (Json 200 b, s') ->
      exists device device',
        s !! ("device:" +:+ deviceId) = Some device
        /\ s' = <["device:" +:+ deviceId := device']> s
        /\ forall k, k <> "name" -> k <> "status" -> k <> "updatedAt" ->
                     get_prop device' k = get_prop device k)
  /\ (forall body deviceId commandId clock,
        handleCommandUpdate body deviceId commandId auth clock s = (Json 200 b, s') ->
        exists command command',
          s !! ("command:" +:+ deviceId +:+ ":" +:+ commandId) = Some command
          /\ s' = <["command:" +:+ deviceId +:+ ":" +:+ commandId := command']> s
          /\ forall k, k <> "status" -> k <> "result" -> k <> "updatedAt" ->
                       get_prop command' k = get_prop command k)
  /\ (forall body childId clock,
        handleChildUpdate body childId auth clock s = (Json 200 b, s') ->
        exists child child',
          s !! ("child:" +:+ childId) = Some child
          /\ s' = <["child:" +:+ childId := child']> s
          /\ forall k, k <> "name" -> k <> "userId" -> k <> "updatedAt" ->
                       get_prop child' k = get_prop child k)
  /\ (forall body familyId clock,
        handleFamilyUpdate body familyId auth clock s = (Json 200 b, s') ->
        exists family family',
          s !! ("family:" +:+ familyId) = Some family
          /\ s' = <["family:" +:+ familyId := family']> s
          /\ forall k, k <> "name" -> k <> "guardians" -> k <> "updatedAt" ->
                       get_prop family' k = get_prop family k).
Proof.
  repeat match goal with |- _ /\ _ => split end.
  - intros body deviceId clock Hrun.
    unfold handleDeviceUpdate in Hrun. run. walk Hrun.
    all: injection Hrun as <- <-.
    all: eexists _, _; split; [reflexivity|]; split; [reflexivity|].
    all: intros k Hname Hstatus Hupdated; unchanged.
  - intros body deviceId commandId clock Hrun.
    unfold handleCommandUpdate in Hrun. run. walk Hrun.
    all: injection Hrun as <- <-.
    all: eexists _, _; split; [reflexivity|]; split; [reflexivity|].
    all: intros k Hstatus Hresult Hupdated; unchanged.
  - intros body childId clock Hrun.
    unfold handleChildUpdate in Hrun. run. walk Hrun.
    all: injection Hrun as <- <-.
    all: eexists _, _; split; [reflexivity|]; split; [reflexivity|].
    all: intros k Hname Huser Hupdated; unchanged.
  - intros body familyId clock Hrun.
    unfold handleFamilyUpdate in Hrun. run. walk Hrun.
    all: injection Hrun as <- <-.
    all: eexists _, _; split; [reflexivity|]; split; [reflexivity|].
    all: intros k Hname Hguardians Hupdated; unchanged.
Qed.

Lemma commands_of_filtered f deviceId ids (s s' : store) commands :
  String.eqb f EmptyString = false ->
  commands_of (Some f) deviceId ids s = (Some commands, s') ->
  Forall (fun command => get_prop command "status" = Some (Some (JStr f))) commands.
Proof.
  intros Hf. revert commands s'.
  induction ids as [|id ids IH]; intros commands s' Hrun.
  - cbn in Hrun. run. simplify_eq. constructor.
  - cbn [commands_of] in Hrun. run. rewrite Hf in Hrun.
    destruct (text_of (Some id)); tidy; [|discriminate].
    destruct (s !! _) as [command|]; tidy.
    + destruct (get_prop command "status") as [status|] eqn:Hstatus; tidy;
        [|discriminate].
      destruct (commands_of (Some f) deviceId ids s) as [[rest|] s''] eqn:Hrest;
        tidy; [|discriminate].
      destruct (strict_eq status (Some (JStr f))) eqn:Heq; simplify_eq.
      * apply strict_eq_text in Heq. subst.
        constructor; [assumption|eauto].
      * eauto.
    + destruct (commands_of (Some f) deviceId ids s) as [[rest|] s''] eqn:Hrest;
        tidy; [|discriminate].
      simplify_eq. eauto.
Qed.

(** The commands a retrieval with a status filter answers all have that
    status. *)
Theorem commands_are_filtered_by_status f deviceId (auth : json) (s s' : store) b :
  f <> EmptyString ->
  handleCommandRetrieval (Some f) deviceId auth s = (Json 200 b, s') ->
  exists commands,
    b = JObj (("commands", JArr commands) :: nil)
    /\ Forall (fun command => get_prop command "status" = Some (Some (JStr f)))
         commands.
Proof.
  intros Hf Hrun. apply String.eqb_neq in Hf.
  unfold handleCommandRetrieval in Hrun. run. walk Hrun.
  all: injection Hrun as <- <-.
  all: eexists; split; [reflexivity|].
  all: eapply commands_of_filtered; eassumption.
Qed.

(** *** Witnesses *)

Lemma created_family_witness :
  exists family,
    snd (handleFamilyCreation sample_family (auth_of "mum" "guardian")
           1700000000000 "f2" ∅) !! "family:f2" = Some family
    /\ get_prop family "guardians" = Some (Some (JArr (JStr "mum" :: nil))).
Proof.
  assert (exists b,
             handleFamilyCreation sample_family (auth_of "mum" "guardian")
               1700000000000 "f2" ∅
             = (Json 200 b,
                snd (handleFamilyCreation sample_family (auth_of "mum" "guardian")
                       1700000000000 "f2" ∅)))
    as [b Hrun] by (eexists; vm_compute; reflexivity).
  destruct (created_family_belongs_to_creator _ _ _ _ _ _ _ "mum" Hrun eq_refl)
    as (family & _ & Hstored & Hguardians & _).
  exists family. split; assumption.
Defined.

Lemma created_child_witness :
  exists child,
    handleChildRetrieval false "c2" (auth_of "mum" "guardian")
      (snd (handleChildCreation sample_child (auth_of "mum" "guardian")
              1700000000000 "c2" household))
    = (Json 200 child,
       snd (handleChildCreation sample_child (auth_of "mum" "guardian")
              1700000000000 "c2" household)).
Proof.
  assert (exists b,
             handleChildCreation sample_child (auth_of "mum" "guardian")
               1700000000000 "c2" household
             = (Json 200 b,
                snd (handleChildCreation sample_child (auth_of "mum" "guardian")
                       1700000000000 "c2" household)))
    as [b Hrun] by (eexists; vm_compute; reflexivity).
  destruct (created_child_joins_family _ _ _ _ _ _ _ Hrun)
    as (child & familyId & text & family & family' & listed & Hrest).
  exists child. apply Hrest.
Defined.

Lemma registered_device_witness :
  exists device,
    handleDeviceRetrieval false "d2" (auth_of "mum" "guardian")
      (snd (handleDeviceRegistration sample_device (auth_of "mum" "guardian")
              1700000000000 "d2" household))
    = (Json 200 device,
       snd (handleDeviceRegistration sample_device (auth_of "mum" "guardian")
              1700000000000 "d2" household)).
Proof.
  assert (exists b,
             handleDeviceRegistration sample_device (auth_of "mum" "guardian")
               1700000000000 "d2" household
             = (Json 200 b,
                snd (handleDeviceRegistration sample_device
                       (auth_of "mum" "guardian") 1700000000000 "d2" household)))
    as [b Hrun] by (eexists; vm_compute; reflexivity).
  destruct (registered_device_joins_child _ _ _ _ _ _ _ Hrun)
    as (device & childId & text & child & child' & listed & Hrest).
  exists device. apply Hrest.
Defined.

Lemma command_list_witness :
  exists commands,
    snd (handleCommandCreation sample_command (auth_of "mum" "guardian")
           1700000000000 "k3" busy) !! "commands:d1" = Some (JArr commands)
    /\ (length commands <= 50)%nat
    /\ head commands = Some (JStr "k3").
Proof.
  assert (exists b,
             handleCommandCreation sample_command (auth_of "mum" "guardian")
               1700000000000 "k3" busy
             = (Json 200 b,
                snd (handleCommandCreation sample_command
                       (auth_of "mum" "guardian") 1700000000000 "k3" busy)))
    as [b Hrun] by (eexists; vm_compute; reflexivity).
  destruct (command_list_bounded _ _ _ _ _ _ _ Hrun)
    as (deviceId & text & command & commands
        & Hid & Htext & _ & _ & _ & Hlist & Hlength & Hhead).
  injection Hid as <-. injection Htext as <-.
  exists commands. auto.
Defined.

Lemma updated_location_witness :
  exists entry,
    handleLocationRetrieval false "d1" (auth_of "kid" "child")
      (snd (handleLocationUpdate sample_update (auth_of "kid" "child")
              1700000000000 household))
    = (Json 200 entry,
       snd (handleLocationUpdate sample_update (auth_of "kid" "child")
              1700000000000 household)).
Proof.
  assert (exists b,
             handleLocationUpdate sample_update (auth_of "kid" "child")
               1700000000000 household
             = (Json 200 b,
                snd (handleLocationUpdate sample_update (auth_of "kid" "child")
                       1700000000000 household)))
    as [b Hrun] by (eexists; vm_compute; reflexivity).
  destruct (updated_location_is_current _ _ _ _ _ _ Hrun)
    as (deviceId & text & entry & Hid & Htext & _ & _ & Hretrieval).
  injection Hid as <-. injection Htext as <-.
  exists entry. exact Hretrieval.
Defined.

Lemma device_update_witness :
  exists device',
    snd (handleDeviceUpdate sample_rename "d1" (auth_of "mum" "guardian")
           1700000000000 household) !! "device:d1" = Some device'
    /\ get_prop device' "userId" = get_prop phone "userId"
    /\ get_prop device' "childId" = get_prop phone "childId".
Proof.
  assert (exists b,
             handleDeviceUpdate sample_rename "d1" (auth_of "mum" "guardian")
               1700000000000 household
             = (Json 200 b,
                snd (handleDeviceUpdate sample_rename "d1"
                       (auth_of "mum" "guardian") 1700000000000 household)))
    as [b Hrun] by (eexists; vm_compute; reflexivity).
  destruct (proj1 (updates_change_only_their_fields _ _ _ _) _ _ _ Hrun)
    as (device & device' & Hdevice & Hstore & Hkept).
  injection Hdevice as <-.
  exists device'. split.
  - rewrite Hstore. apply lookup_insert_eq.
  - split; apply Hkept; discriminate.
Defined.

Lemma command_filter_witness :
  exists commands,
    handleCommandRetrieval (Some "pending") "d1" (auth_of "mum" "guardian") busy
    = (Json 200 (JObj (("commands", JArr commands) :: nil)), busy)
    /\ Forall (fun command =>
                 get_prop command "status" = Some (Some (JStr "pending")))
         commands.
Proof.
  assert (exists b,
             handleCommandRetrieval (Some "pending") "d1" (auth_of "mum" "guardian")
               busy = (Json 200 b, busy))
    as [b Hrun] by (eexists; vm_compute; reflexivity).
  destruct (commands_are_filtered_by_status "pending" _ _ _ _ _
              ltac:(discriminate) Hrun) as (commands & -> & Hall).
  exists commands. split; assumption.
Defined.

End WorkerCoverage.

(** ** Routing *)

Module RouterCoverage.

Import Base64 Json Js Jwt Worker Router WorkerFacts WorkerCoverage.

Local Open Scope Z_scope.

Section Dispatch.

Context `{Platform}.

Lemma authenticated_unverified r clock route (s : store) :
  verified r clock = None ->
  exists reason, authenticated r clock route s = (Answer (Json 401 (error reason)), s).
Proof.
  unfold verified, bearer, authenticated.
  destruct (authorization r) as [authHeader|]; [|eauto].
  destruct (String.eqb_spec authHeader EmptyString) as [->|_]; [eauto|].
  cbn [orb].
  destruct (is_prefix "Bearer " authHeader); cbn [negb]; [|eauto].
  destruct (split_on " " authHeader !! 1%nat) as [t|]; [|eauto].
  destruct (verifyJWT clock (JStr t)); [discriminate|eauto].
Qed.

Lemma authenticated_verified r clock route payload :
  verified r clock = Some payload ->
  authenticated r clock route = route payload.
Proof.
  unfold verified, bearer, authenticated.
  destruct (authorization r) as [authHeader|]; [|discriminate].
  destruct (String.eqb_spec authHeader EmptyString) as [->|_]; [discriminate|].
  cbn [orb].
  destruct (is_prefix "Bearer " authHeader); cbn [negb]; [|discriminate].
  destruct (split_on " " authHeader !! 1%nat) as [t|]; [|discriminate].
  destruct (verifyJWT clock (JStr t)); [|discriminate].
  now intros [= ->].
Qed.

(** Behind the bearer token, a request that bears no token, or one that
    [verifyJWT] does not accept, is answered 401 and reaches no handler:
    the store is as it was. *)
Theorem unverified_requests_are_refused r clock uuid (s : store) :
  method r <> "OPTIONS" ->
  protected r = true ->
  verified r clock = None ->
  exists reason,
    handleRequest r clock uuid s = (Answer (Json 401 (error reason)), s).
Proof.
  intros Hmethod Hprotected Hverified.
  apply String.eqb_neq in Hmethod.
  unfold protected in Hprotected.
  apply andb_true_iff in Hprotected as [Hauth Hpath].
  apply negb_true_iff in Hauth.
  unfold handleRequest. rewrite Hmethod, Hauth.
  unfold handleLocation, handleCommand, handleFamily, handleChild, handleDevice.
  repeat match goal with
         | |- context [if is_prefix ?p ?s then _ else _] =>
             destruct (is_prefix p s);
             [now apply authenticated_unverified|]
         end.
  discriminate.
Qed.

Lemma answer_reads_only run (s : store) :
  snd (run s) = s -> snd (answer run s) = s.
Proof. unfold answer. destruct (run s). auto. Qed.

(** A request changes the store only when it bears a token that
    [verifyJWT] accepts, or when it is a registration. *)
Theorem writes_need_a_token_or_a_registration r clock uuid (s : store) :
  snd (handleRequest r clock uuid s) <> s ->
  (pathname r = "/api/auth/register" /\ method r = "POST")
  \/ exists payload, verified r clock = Some payload.
Proof.
  intros Hwrites.
  destruct (verified r clock) as [payload|] eqn:Hverified; [eauto|].
  left.
  assert (forall route, snd (authenticated r clock route s) = s) as Hrefused.
  { intros route.
    destruct (authenticated_unverified r clock route s Hverified) as [reason ->].
    reflexivity. }
  unfold handleRequest, handleLocation, handleCommand, handleFamily, handleChild,
    handleDevice in Hwrites.
  repeat match type of Hwrites with
         | context [if ?c then _ else _] =>
             lazymatch c with
             | context [if _ then _ else _] => fail
             | _ => destruct c eqn:?
             end
         end;
    try (exfalso; apply Hwrites; first [reflexivity | apply Hrefused]).
  unfold handleAuth in Hwrites.
  destruct (String.eqb_spec (pathname r) "/api/auth/register") as [Hpath|];
    destruct (String.eqb_spec (method r) "POST") as [Hpost|]; cbn [andb] in Hwrites;
    [now split|..].
  all: repeat match type of Hwrites with
         | context [if ?c then _ else _] =>
             lazymatch c with
             | context [if _ then _ else _] => fail
             | _ => destruct c eqn:?
             end
         end.
  all: exfalso; apply Hwrites.
  all: first [ reflexivity
             | apply answer_reads_only;
               first [ apply handleLogin_reads_only
                     | apply handleVerify_reads_only
                     | apply handleRefresh_reads_only ] ].
Qed.

Lemma verified_none r clock : verified r clock = None.
Proof.
  unfold verified. destruct (bearer r) as [t|]; [|reflexivity].
  destruct (verifyJWT clock (JStr t)) as [payload|reason] eqn:Hverify;
    [|reflexivity].
  now apply JwtFacts.verifyJWT_never_valid in Hverify.
Qed.

(** Behind the bearer token every request is answered 401 and the store
    is as it was, whatever token the request bears: the handlers of
    locations, commands, families, children and devices are not reached
    through [handleRequest]. *)
Theorem bearer_routes_refuse_every_request r clock uuid (s : store) :
  method r <> "OPTIONS" ->
  protected r = true ->
  exists reason,
    handleRequest r clock uuid s = (Answer (Json 401 (error reason)), s).
Proof.
  intros Hmethod Hprotected.
  apply String.eqb_neq in Hmethod.
  unfold protected in Hprotected.
  apply andb_true_iff in Hprotected as [Hauth Hpath].
  apply negb_true_iff in Hauth.
  unfold handleRequest. rewrite Hmethod, Hauth.
  unfold handleLocation, handleCommand, handleFamily, handleChild, handleDevice.
  repeat match goal with
         | |- context [if is_prefix ?p ?s then _ else _] =>
             destruct (is_prefix p s);
             [apply authenticated_unverified, verified_none|]
         end.
  discriminate.
Qed.

End Dispatch.

Lemma unverified_request_witness :
  exists reason,
    @handleRequest stand_in (sample_request "e30=.eyJleHAiOjB9") 1700000000000 "u-1"
      household
    = (Answer (Json 401 (error reason)), household).
Proof.
  apply (@unverified_requests_are_refused stand_in
           (sample_request "e30=.eyJleHAiOjB9") 1700000000000 "u-1" household).
  - discriminate.
  - reflexivity.
  - vm_compute. reflexivity.
Defined.

(** The request bears a token with the right MAC and a payload that has
    not expired. *)
Lemma bearer_routes_witness :
  exists reason,
    @handleRequest stand_in (sample_request (@signed_token stand_in far_payload))
      1700000000000 "u-1" household
    = (Answer (Json 401 (error reason)), household).
Proof.
  apply (@bearer_routes_refuse_every_request stand_in
           (sample_request (@signed_token stand_in far_payload)) 1700000000000
           "u-1" household).
  - discriminate.
  - reflexivity.
Defined.

Lemma registration_writes_witness :
  Router.pathname sample_signup = "/api/auth/register"
  /\ Router.method sample_signup = "POST".
Proof.
  destruct (@writes_need_a_token_or_a_registration stand_in
              sample_signup 1700000000000 "u-1" ∅) as [Hsignup|[payload Hverified]].
  - intros Hsame.
    apply (f_equal (fun m : store => m !! "user:a@b.com")) in Hsame.
    vm_compute in Hsame. discriminate Hsame.
  - exact Hsignup.
  - vm_compute in Hverified. discriminate Hverified.
Defined.

End RouterCoverage.
